(** * LocaViral: the campaign orchestrator and the wizard state machine

    A shallow embedding of [services/geminiService.ts] (the two public
    operations [generateFollowUpQuestion] and [generateCampaign], with the
    helpers [getDesignTrends] and [generateBanner]) and of the handlers and
    the progress effect of [App.tsx].

    Conventions of the embedding.
    - A JavaScript string is the [string] of its UTF-8 bytes.  Emptiness,
      concatenation and the search for an ASCII needle agree with the
      UTF-16 view of the same text.
    - A promise is the value it settles to ([Settled]); an [async] function
      is a function of the environment (the [API_KEY] and the gateway) and
      of the log of the gateway requests issued so far.
    - The gateway is an oracle: the answer to the [n]-th request of a run.
    - [console.log], [console.warn] and [console.error] are not modelled;
      nothing below observes the console. *)

From Stdlib Require Import String Ascii List Bool Arith Lia.
From Stdlib Require Import QArith Lqa.
Import ListNotations.
Close Scope Q_scope.
Open Scope nat_scope.
Open Scope string_scope.

Set Implicit Arguments.

(** ** JavaScript strings *)

Module Js.

(** The double quote, which the prompts embed around interpolated text. *)
Definition dq : string := String (ascii_of_nat 34) EmptyString.

Definition nl : string := String (ascii_of_nat 10) EmptyString.

(** A template literal, line by line. *)
Definition lines (l : list string) : string := String.concat nl l.

(** [!!s] *)
Definition truthy (s : string) : bool :=
  match s with EmptyString => false | String _ _ => true end.

(** [!!s] for [s : string | null] *)
Definition truthy_opt (s : option string) : bool :=
  match s with None => false | Some s => truthy s end.

(** [a || b] on strings *)
Definition or_else (a b : string) : string := if truthy a then a else b.

(** [${x}] for an optional parameter: [undefined] prints as its name. *)
Definition interp (x : option string) : string :=
  match x with Some s => s | None => "undefined" end.

(** [hay.includes(needle)] *)
Fixpoint includes (needle hay : string) : bool :=
  if String.prefix needle hay then true
  else match hay with
       | EmptyString => false
       | String _ rest => includes needle rest
       end.

Definition bytes (l : list nat) : string :=
  string_of_list_ascii (map ascii_of_nat l).

Definition rev (s : string) : string :=
  string_of_list_ascii (List.rev (list_ascii_of_string s)).

(** The WhiteSpace and LineTerminator code points of ECMAScript, each as
    its UTF-8 bytes: TAB, LF, VT, FF, CR, SP, U+00A0, U+1680,
    U+2000..U+200A, U+2028, U+2029, U+202F, U+205F, U+3000, U+FEFF. *)
Definition whiteSpace : list string :=
  map bytes
    ([ [9]; [10]; [11]; [12]; [13]; [32]; [194; 160]; [225; 154; 128] ]
     ++ map (fun k => [226; 128; 128 + k]) (seq 0 11)
     ++ [ [226; 128; 168]; [226; 128; 169]; [226; 128; 175];
          [226; 129; 159]; [227; 128; 128]; [239; 187; 191] ]).

Definition dropPrefix (p s : string) : string :=
  String.substring (String.length p) (String.length s - String.length p) s.

Fixpoint trimStartWith (ws : list string) (fuel : nat) (s : string) : string :=
  match fuel with
  | O => s
  | S fuel' =>
      match find (fun w => String.prefix w s) ws with
      | Some w => trimStartWith ws fuel' (dropPrefix w s)
      | None => s
      end
  end.

Definition trimStart (s : string) : string :=
  trimStartWith whiteSpace (String.length s) s.

Definition trimEnd (s : string) : string :=
  rev (trimStartWith (map rev whiteSpace) (String.length s) (rev s)).

(** [s.trim()] *)
Definition trim (s : string) : string := trimEnd (trimStart s).

(** [s.replace(re, empty)] for the class of U+0300..U+036F: the combining
    diacritical marks are the two-byte sequences CC 80..CC BF and
    CD 80..CD AF. *)
Definition isCombiningMark (c1 c2 : ascii) : bool :=
  let a := nat_of_ascii c1 in
  let b := nat_of_ascii c2 in
  (Nat.eqb a 204 && Nat.leb 128 b && Nat.leb b 191)
  || (Nat.eqb a 205 && Nat.leb 128 b && Nat.leb b 175).

Fixpoint stripCombiningMarks (s : string) : string :=
  match s with
  | String c1 (String c2 rest as tl) =>
      if isCombiningMark c1 c2 then stripCombiningMarks rest
      else String c1 (stripCombiningMarks tl)
  | _ => s
  end.

(** The Unicode tables of the runtime behind [toLowerCase()] and
    [normalize('NFD')].  The program is stated over any such tables. *)
Class UnicodeTables := {
  toLowerCase : string -> string;
  normalizeNFD : string -> string
}.

End Js.

Import Js.

(** ** Promises and the AI gateway *)

Module GenAI.

(** What a [throw] or a rejected promise carries. *)
Inductive Thrown : Type :=
| Error (message : string)
| TypeError (message : string).

(** A settled promise. *)
Inductive Settled (A : Type) : Type :=
| Fulfilled (v : A)
| Rejected (reason : Thrown).

Arguments Rejected {A} reason.

Definition isFulfilled {A} (p : Settled A) : bool :=
  match p with Fulfilled _ => true | Rejected _ => false end.

(** The request and response shapes of [ai.models.generateContent], as far
    as the program writes and reads them. *)
Record Blob := { mimeType : string; data : string }.

Record Part := { partText : option string; inlineData : option Blob }.

Definition textPart (t : string) : Part :=
  {| partText := Some t; inlineData := None |}.

Definition inlineDataPart (b : Blob) : Part :=
  {| partText := None; inlineData := Some b |}.

Record Content := { role : option string; parts : option (list Part) }.

Inductive Contents : Type :=
| ContentsString (s : string)
| ContentsList (l : list Content)
| ContentsObject (c : Content).

Inductive Tool : Type := googleSearch.

Record Request := {
  model : string;
  contents : Contents;
  tools : list Tool
}.

Record Candidate := { content : option Content }.

Record Response := {
  text : option string;
  candidates : option (list Candidate)
}.

(** The environment of a run: the configured key and the gateway, which
    answers the [n]-th request of the run by a response or a rejection. *)
Record Env := {
  API_KEY : option string;
  gateway : nat -> Request -> Settled Response
}.

(** An [async] computation: it reads the environment, appends the requests
    it issues to the log and settles. *)
Definition Async (A : Type) : Type :=
  Env -> list Request -> Settled A * list Request.

Definition ret {A} (a : A) : Async A :=
  fun _ log => (Fulfilled a, log).

Definition throw {A} (e : Thrown) : Async A :=
  fun _ log => (Rejected e, log).

Definition bind {A B} (c : Async A) (k : A -> Async B) : Async B :=
  fun env log =>
    match c env log with
    | (Fulfilled a, log') => k a env log'
    | (Rejected e, log') => (Rejected e, log')
    end.

Definition ask : Async Env :=
  fun env log => (Fulfilled env, log).

(** [try { body } catch (e) { handler }] *)
Definition tryCatch {A} (body : Async A) (handler : Thrown -> Async A) : Async A :=
  fun env log =>
    match body env log with
    | (Fulfilled a, log') => (Fulfilled a, log')
    | (Rejected e, log') => handler e env log'
    end.

(** [ai.models.generateContent(req)] *)
Definition generateContent (req : Request) : Async Response :=
  fun env log => (gateway env (List.length log) req, (log ++ [req])%list).

(** [Promise.all([p, q])] over two computations started in this order:
    both run, whatever the other does; the join rejects as soon as one of
    them rejects. *)
Definition all2 {A B} (p : Async A) (q : Async B) : Async (A * B) :=
  fun env log =>
    let (ra, log1) := p env log in
    let (rb, log2) := q env log1 in
    (match ra, rb with
     | Fulfilled a, Fulfilled b => Fulfilled (a, b)
     | Rejected e, _ => Rejected e
     | _, Rejected e => Rejected e
     end, log2).

Definition all3 {A B C} (p : Async A) (q : Async B) (r : Async C)
  : Async (A * B * C) :=
  fun env log =>
    let (ra, log1) := p env log in
    let (rb, log2) := q env log1 in
    let (rc, log3) := r env log2 in
    (match ra, rb, rc with
     | Fulfilled a, Fulfilled b, Fulfilled c => Fulfilled (a, b, c)
     | Rejected e, _, _ => Rejected e
     | _, Rejected e, _ => Rejected e
     | _, _, Rejected e => Rejected e
     end, log3).

End GenAI.

Import GenAI.

Declare Scope async_scope.
Delimit Scope async_scope with async.
Notation "x <- c ;; k" := (bind c (fun x => k))
  (at level 61, c at next level, right associativity) : async_scope.
Notation "' pat <- c ;; k" := (bind c (fun x => match x with pat => k end))
  (at level 61, pat pattern, c at next level, right associativity) : async_scope.

(** ** services/geminiService.ts *)

Module Service.

Local Open Scope async_scope.

(** [const apiKey = process.env.API_KEY || ''] *)
Definition apiKey (env : Env) : string :=
  match API_KEY env with
  | Some k => or_else k EmptyString
  | None => EmptyString
  end.

(** [o?.trim()] *)
Definition trim_opt (o : option string) : option string := option_map trim o.

(** [o || d] for [o : string | undefined] *)
Definition or_else_opt (o : option string) (d : string) : string :=
  match o with Some s => or_else s d | None => d end.

(** The argument of [generateCampaign].  [dynamicQuestion] is declared a
    string; the caller spreads the wizard's data, where it may be null. *)
Record CampaignData := {
  description : string;
  dynamicQuestion : option string;
  dynamicAnswer : string;
  price : string;
  contactPhone : string;
  delivery : bool;
  location : string;
  productImage : string
}.

Record AdGenerationResult := {
  copy : string;
  bannerSquare : string;
  bannerStory : string;
  bannerDesign : string
}.

Inductive BannerType : Type := clean_square | clean_story | design_square.

Definition questionPrompt (description : string) : string :=
  lines
    [ EmptyString;
      "      Você é um especialista em vendas.";
      "      Produto: " ++ dq ++ description ++ dq ++ ".";
      "      ";
      "      Analise a descrição e a imagem. Crie UMA ÚNICA pergunta curta para descobrir um detalhe técnico essencial que falta (ex: sabores, voltagem, marca).";
      "      Retorne APENAS a pergunta.";
      "    " ].

Definition questionFallbackEmpty : string :=
  "Quais são as variações ou modelos disponíveis?".

Definition questionFallbackError : string :=
  "Poderia dar mais detalhes técnicos sobre o produto?".

Definition questionRequest (prompt imageBase64 : string) : Request :=
  {| model := "gemini-3-flash-preview";
     contents := ContentsList
       [ {| role := Some "user";
            parts := Some
              [ textPart prompt;
                inlineDataPart {| mimeType := "image/jpeg";
                                  data := imageBase64 |} ] |} ];
     tools := [] |}.

Definition generateFollowUpQuestion (description imageBase64 : string)
  : Async string :=
  env <- ask ;;
  if negb (truthy (apiKey env)) then throw (Error "API Key missing")
  else
    tryCatch
      (let prompt := questionPrompt description in
       response <- generateContent (questionRequest prompt imageBase64) ;;
       ret (or_else_opt (trim_opt (text response)) questionFallbackEmpty))
      (fun error => ret questionFallbackError).

Definition trendPrompt (description : string) : string :=
  lines
    [ EmptyString;
      "                Primeiro, identifique o produto principal nesta descrição: " ++ dq ++ description ++ dq ++ ".";
      "                Em seguida, pesquise no Google EXATAMENTE com a query: " ++ dq ++ "post [PRODUTO] site:designi.com.br" ++ dq;
      "                (Exemplo: se for bolo, pesquise " ++ dq ++ "post bolo de pote site:designi.com.br" ++ dq ++ ")";
      EmptyString;
      "                Analise os snippets e títulos dos resultados para identificar o estilo visual (cores, fundos, elementos) que está em alta no Designi.";
      "                ";
      "                Retorne APENAS um parágrafo curto de " ++ dq ++ "Direção de Arte" ++ dq ++ " técnica para um designer recriar esse estilo:";
      "                1. Paleta de cores.";
      "                2. Iluminação/Fundo.";
      "                3. Elementos chave.";
      "            " ].

Definition TEMPLATE_BOLO_POTE_V1 : string := "TEMPLATE_BOLO_POTE_V1".

Definition trendFallbackEmpty : string :=
  "Estilo moderno, clean, fundo sólido e iluminação de estúdio.".

Definition trendFallbackError : string :=
  "Estilo comercial high-end, iluminação de estúdio profissional, fundo neutro.".

Definition copyPrompt (d : CampaignData) : string :=
  lines
    [ EmptyString;
      "    Crie UM ÚNICO texto de anúncio curto e direto para Facebook/OLX.";
      "    Foco: Venda rápida, urgência e clareza. Nada de enrolação.";
      "    ";
      "    Produto: " ++ description d;
      "    Detalhes: " ++ dynamicAnswer d;
      "    Preço: " ++ price d;
      "    Local: " ++ location d;
      "    Entrega: " ++ (if delivery d then "Sim" else "Não");
      "    Zap: " ++ contactPhone d;
      "    ";
      "    Formato Obrigatório:";
      "    [Headline Curta e Impactante]";
      "    ";
      "    [3 Bullet points com os principais benefícios/detalhes]";
      "    ";
      "    💰 Apenas " ++ price d;
      "    📍 " ++ location d ++ " | 🚚 " ++ (if delivery d then "Entregamos" else "Retirada");
      "    📲 Chame agora: " ++ contactPhone d;
      "    ";
      "    Sem hashtags. Sem introdução.";
      "  " ].

Definition copyPlaceholder : string := "Erro ao gerar texto.".

Definition cleanSquarePrompt (description : string) : string :=
  lines
    [ EmptyString;
      "              Edit this product image to look like a high-end e-commerce photo.";
      "              Ratio: 1:1 Square.";
      "              Action: Remove background distractions, improve lighting, make the product pop. ";
      "              Background: Clean, neutral, professional studio setting appropriate for: " ++ dq ++ description ++ dq ++ ".";
      "              No text overlay.";
      "            " ].

Definition cleanStoryPrompt : string :=
  lines
    [ EmptyString;
      "              Edit this product image for an Instagram Story background.";
      "              Ratio: 9:16 Vertical.";
      "              Action: Center the product, extend the background seamlessly top and bottom.";
      "              Style: Aesthetic, clean, minimalist.";
      "              No text overlay.";
      "            " ].

Definition templatePrompt (contactInfo price : option string) : string :=
  lines
    [ EmptyString;
      "                    Act as a Senior Art Director. ";
      "                    Task: Create a promotional ad for " ++ dq ++ "Bolo de Pote" ++ dq ++ " (Cake in a Jar) following a STRICT BRAND TEMPLATE.";
      EmptyString;
      "                    [BRAND VISUAL IDENTITY - " ++ dq ++ "Bolo de Pote V1" ++ dq ++ "]";
      "                    - Background: Deep Burgundy/Wine Red texture (rich, premium, romantic).";
      "                    - Elements: 3D Glossy Hearts (Rose Gold/Pink) floating in the background with depth of field.";
      "                    - Base: A rustic beige jute/burlap fabric mat where the product sits.";
      "                    - Props: Fresh, vibrant red strawberries scattered near the base of the jar.";
      "                    - Badge: A gold seal/sticker on the left side.";
      EmptyString;
      "                    [PRODUCT INTEGRATION]";
      "                    - Input Image: Use the cake jar from the provided image.";
      "                    - Action: Place the jar centrally on the jute mat. Enhance its layers to look delicious and creamy. Lighting should be soft and warm.";
      EmptyString;
      "                    [TEXT OVERLAY - RENDER THIS TEXT CLEARLY]";
      "                    - Top Title: " ++ dq ++ "Experimente nosso" ++ dq ++ " (Small, Elegant Serif, White)";
      "                    - Main Title: " ++ dq ++ "Bolo de Pote" ++ dq ++ " (Large, Elegant Serif, White/Cream)";
      "                    - Call to Action: " ++ dq ++ "PEÇA JÁ! " ++ interp contactInfo ++ dq ++ " (Bottom, Bold, White)";
      "                    - Price Tag (if fits): " ++ dq ++ interp price ++ dq;
      EmptyString;
      "                    Ensure the final image looks like a high-end confectionery flyer.";
      "                " ].

Definition genericPrompt (contactInfo price designTrend : option string)
  : string :=
  lines
    [ EmptyString;
      "                  Act as a Senior Art Director. Create a high-conversion social media ad.";
      EmptyString;
      "                  [INPUT PRODUCT]";
      "                  Keep the product from the image exactly as is, but enhance sharpness and lighting.";
      EmptyString;
      "                  [ART DIRECTION & TRENDS]";
      "                  Apply this specific visual style found in top-performing ads for this niche:";
      "                  " ++ dq ++ interp designTrend ++ dq;
      EmptyString;
      "                  [CORE PRINCIPLES]";
      "                  - Lighting: Key light (softbox) + Rim light (backlight) for 3D separation. NO flat lighting.";
      "                  - Composition: Leave negative space for text. Clean, no clutter.";
      "                  - Quality: 8k, Octane Render style, Commercial Photography.";
      EmptyString;
      "                  [TEXT OVERLAY]";
      "                  Integrate these details naturally into the composition (do not cover the product):";
      "                  - Price: " ++ dq ++ interp price ++ dq;
      "                  - Contact: " ++ dq ++ interp contactInfo ++ dq;
      EmptyString;
      "                  Make it look like a paid template from Designi or Canva.";
      "                " ].

Definition bannerPrompt (description : string) (type : BannerType)
    (contactInfo price designTrend : option string) : string :=
  match type with
  | clean_square => cleanSquarePrompt description
  | clean_story => cleanStoryPrompt
  | design_square =>
      match designTrend with
      | Some t =>
          if String.eqb t TEMPLATE_BOLO_POTE_V1
          then templatePrompt contactInfo price
          else genericPrompt contactInfo price designTrend
      | None => genericPrompt contactInfo price designTrend
      end
  end.

(** [response.candidates?.[0]?.content?.parts || []] *)
Definition firstCandidateParts (response : Response) : list Part :=
  match candidates response with
  | Some (c :: _) =>
      match content c with
      | Some ct => match parts ct with Some ps => ps | None => [] end
      | None => []
      end
  | _ => []
  end.

(** The [for] loop of [generateBanner]: the data of the first part that
    has inline data, if any. *)
Fixpoint firstInlineData (ps : list Part) : option string :=
  match ps with
  | [] => None
  | part :: rest =>
      match inlineData part with
      | Some b => Some (data b)
      | None => firstInlineData rest
      end
  end.

Definition bannerRequest (imageBase64 prompt : string) : Request :=
  {| model := "gemini-2.5-flash-image";
     contents := ContentsObject
       {| role := None;
          parts := Some
            [ inlineDataPart {| mimeType := "image/jpeg";
                                data := imageBase64 |};
              textPart prompt ] |};
     tools := [] |}.

Definition generateBanner (imageBase64 description : string)
    (type : BannerType) (contactInfo price designTrend : option string)
  : Async string :=
  tryCatch
    (let prompt := bannerPrompt description type contactInfo price designTrend in
     response <- generateContent (bannerRequest imageBase64 prompt) ;;
     match firstInlineData (firstCandidateParts response) with
     | Some d => ret d
     | None => ret imageBase64
     end)
    (fun e => ret imageBase64).

Definition copyRequest (d : CampaignData) : Request :=
  {| model := "gemini-3-flash-preview";
     contents := ContentsString (copyPrompt d);
     tools := [] |}.

Section WithUnicodeTables.

Context `{UnicodeTables}.

(** [description.toLowerCase().normalize('NFD').replace(marks, empty)] *)
Definition normalize (description : string) : string :=
  stripCombiningMarks (normalizeNFD (toLowerCase description)).

Definition trendRequest (description : string) : Request :=
  {| model := "gemini-3-flash-preview";
     contents := ContentsString (trendPrompt description);
     tools := [googleSearch] |}.

Definition getDesignTrends (description : string) : Async string :=
  let normalizedDesc := normalize description in
  if includes "bolo de pote" normalizedDesc
     || includes "bolo no pote" normalizedDesc
  then ret TEMPLATE_BOLO_POTE_V1
  else
    tryCatch
      (response <- generateContent (trendRequest description) ;;
       let trend := trim_opt (text response) in
       ret (or_else_opt trend trendFallbackEmpty))
      (fun error => ret trendFallbackError).

Definition generateCampaign (d : CampaignData) : Async AdGenerationResult :=
  env <- ask ;;
  if negb (truthy (apiKey env)) then throw (Error "API Key missing")
  else
    let designTrendPromise := getDesignTrends (description d) in
    let copyPromise := generateContent (copyRequest d) in
    '(designTrend, copyResponse) <- all2 designTrendPromise copyPromise ;;
    let generatedCopy := or_else_opt (text copyResponse) copyPlaceholder in
    let squareBannerPromise :=
      generateBanner (productImage d) (description d) clean_square
        None None None in
    let storyBannerPromise :=
      generateBanner (productImage d) (description d) clean_story
        None None None in
    let designBannerPromise :=
      generateBanner (productImage d) (description d) design_square
        (Some (contactPhone d)) (Some (price d)) (Some designTrend) in
    '(bannerSquare, bannerStory, bannerDesign) <-
      all3 squareBannerPromise storyBannerPromise designBannerPromise ;;
    ret {| copy := generatedCopy;
           bannerSquare := bannerSquare;
           bannerStory := bannerStory;
           bannerDesign := bannerDesign |}.

(** *** The stages of a run, read off the definitions above *)

(** What a banner slot holds, given how its own gateway call settled. *)
Definition bannerOf (imageBase64 : string) (outcome : Settled Response) : string :=
  match outcome with
  | Fulfilled response =>
      match firstInlineData (firstCandidateParts response) with
      | Some d => d
      | None => imageBase64
      end
  | Rejected _ => imageBase64
  end.

(** The short-circuit test of [getDesignTrends]. *)
Definition isKnownTemplate (description : string) : bool :=
  includes "bolo de pote" (normalize description)
  || includes "bolo no pote" (normalize description).

(** The art direction, given how the search call settled. *)
Definition trendOf (outcome : Settled Response) : string :=
  match outcome with
  | Fulfilled response =>
      or_else_opt (trim_opt (text response)) trendFallbackEmpty
  | Rejected _ => trendFallbackError
  end.

(** The value and the log of the trend lookup of a campaign. *)
Definition trendStage (d : CampaignData) (env : Env) (log : list Request)
  : string * list Request :=
  if isKnownTemplate (description d) then (TEMPLATE_BOLO_POTE_V1, log)
  else (trendOf (gateway env (List.length log) (trendRequest (description d))),
        (log ++ [trendRequest (description d)])%list).

(** How the copy call of a campaign settles. *)
Definition copyOutcome (d : CampaignData) (env : Env) (log : list Request)
  : Settled Response :=
  gateway env (List.length (snd (trendStage d env log))) (copyRequest d).

(** The three image-edit requests of a campaign, in the order issued. *)
Definition squareRequest (d : CampaignData) : Request :=
  bannerRequest (productImage d)
    (bannerPrompt (description d) clean_square None None None).

Definition storyRequest (d : CampaignData) : Request :=
  bannerRequest (productImage d)
    (bannerPrompt (description d) clean_story None None None).

Definition designRequest (d : CampaignData) (designTrend : string) : Request :=
  bannerRequest (productImage d)
    (bannerPrompt (description d) design_square
       (Some (contactPhone d)) (Some (price d)) (Some designTrend)).

(** Two inputs that agree on every field but [dynamicQuestion]. *)
Definition sameButDynamicQuestion (d1 d2 : CampaignData) : Prop :=
  description d1 = description d2
  /\ dynamicAnswer d1 = dynamicAnswer d2
  /\ price d1 = price d2
  /\ contactPhone d1 = contactPhone d2
  /\ delivery d1 = delivery d2
  /\ location d1 = location d2
  /\ productImage d1 = productImage d2.

End WithUnicodeTables.

End Service.

(** ** App.tsx: the wizard state, the progress effect and the handlers *)

Module App.

Inductive Step : Type :=
| HOME | DESCRIPTION | DYNAMIC_QUESTION | TECHNICAL_DETAILS | PROCESSING | RESULTS.

Record WizardData := {
  productImage : option string;
  description : string;
  dynamicQuestion : option string;
  dynamicAnswer : string;
  price : string;
  contactPhone : string;
  delivery : bool;
  location : string
}.

Record Results := {
  copy : option string;
  bannerSquare : option string;
  bannerStory : option string;
  bannerDesign : option string
}.

(** [progress] is a JavaScript number.  The program only adds 2, 1 and 0.5
    to 5 and stores 100: every value it holds is a multiple of one half
    below 2^53, which a double represents and adds exactly, so the rationals
    carry the same arithmetic. *)
Record WizardState := {
  step : Step;
  isLoading : bool;
  loadingMessage : string;
  progress : Q;
  data : WizardData;
  results : option Results
}.

(** The argument of [useState]. *)
Definition initialState : WizardState :=
  {| step := HOME;
     isLoading := false;
     loadingMessage := EmptyString;
     progress := 0;
     data := {| productImage := None;
                description := EmptyString;
                dynamicQuestion := None;
                dynamicAnswer := EmptyString;
                price := EmptyString;
                contactPhone := EmptyString;
                delivery := false;
                location := EmptyString |};
     results := None |}.

(** [{ ...prev, field: v }] *)
Definition with_step (v : Step) (prev : WizardState) : WizardState :=
  {| step := v; isLoading := isLoading prev;
     loadingMessage := loadingMessage prev; progress := progress prev;
     data := data prev; results := results prev |}.

Definition with_isLoading (v : bool) (prev : WizardState) : WizardState :=
  {| step := step prev; isLoading := v;
     loadingMessage := loadingMessage prev; progress := progress prev;
     data := data prev; results := results prev |}.

Definition with_loadingMessage (v : string) (prev : WizardState) : WizardState :=
  {| step := step prev; isLoading := isLoading prev;
     loadingMessage := v; progress := progress prev;
     data := data prev; results := results prev |}.

Definition with_progress (v : Q) (prev : WizardState) : WizardState :=
  {| step := step prev; isLoading := isLoading prev;
     loadingMessage := loadingMessage prev; progress := v;
     data := data prev; results := results prev |}.

Definition with_data (v : WizardData) (prev : WizardState) : WizardState :=
  {| step := step prev; isLoading := isLoading prev;
     loadingMessage := loadingMessage prev; progress := progress prev;
     data := v; results := results prev |}.

Definition with_results (v : option Results) (prev : WizardState) : WizardState :=
  {| step := step prev; isLoading := isLoading prev;
     loadingMessage := loadingMessage prev; progress := progress prev;
     data := data prev; results := v |}.

(** [{ ...prev.data, dynamicQuestion: v }] *)
Definition with_dynamicQuestion (v : option string) (d : WizardData) : WizardData :=
  {| productImage := productImage d; description := description d;
     dynamicQuestion := v; dynamicAnswer := dynamicAnswer d;
     price := price d; contactPhone := contactPhone d;
     delivery := delivery d; location := location d |}.

(** The character class [a-z]. *)
Definition isLowerLetter (c : ascii) : bool :=
  let n := nat_of_ascii c in Nat.leb 97 n && Nat.leb n 122.

Fixpoint dropLowerLetters (s : string) : string :=
  match s with
  | String c rest => if isLowerLetter c then dropLowerLetters rest else s
  | EmptyString => s
  end.

(** [base64.replace(/^data:image\/[a-z]+;base64,/, empty)] *)
Definition stripBase64Prefix (base64 : string) : string :=
  if String.prefix "data:image/" base64 then
    let afterSlash := dropPrefix "data:image/" base64 in
    let afterType := dropLowerLetters afterSlash in
    if Nat.ltb (String.length afterType) (String.length afterSlash)
       && String.prefix ";base64," afterType
    then dropPrefix ";base64," afterType
    else base64
  else base64.

(** *** The progress bar simulation effect *)

Definition Qltb (x y : Q) : bool := negb (Qle_bool y x).

(** The updater run when loading starts. *)
Definition seedProgress (prev : WizardState) : WizardState :=
  with_progress 5 prev.

(** The updater of the interval, run every 150ms. *)
Definition tick (prev : WizardState) : WizardState :=
  if Qle_bool 95 (progress prev) then prev
  else
    let increment : Q :=
      (if Qltb (progress prev) 40 then 2
       else if Qltb (progress prev) 70 then 1
       else 1 # 2)%Q in
    with_progress (progress prev + increment)%Q prev.

(** The session: the state cell, whether the interval of the progress
    effect is running, the alerts shown and the gateway requests issued. *)
Record Sys := {
  wizard : WizardState;
  intervalActive : bool;
  alerts : list string;
  calls : list Request
}.

(** How many times the interval fires while a gateway call is
    outstanding, and during the 500ms before the results are shown. *)
Record Clock := { awaitTicks : nat; graceTicks : nat }.

Definition setState (f : WizardState -> WizardState) (sys : Sys) : Sys :=
  {| wizard := f (wizard sys); intervalActive := intervalActive sys;
     alerts := alerts sys; calls := calls sys |}.

Definition alert (msg : string) (sys : Sys) : Sys :=
  {| wizard := wizard sys; intervalActive := intervalActive sys;
     alerts := (alerts sys ++ [msg])%list; calls := calls sys |}.

(** A render: the effect on [state.isLoading] runs when the flag has
    changed since the last render; it seeds the progress and starts the
    interval, or its cleanup stops the interval. *)
Definition render (sys : Sys) : Sys :=
  match isLoading (wizard sys), intervalActive sys with
  | true, false =>
      {| wizard := seedProgress (wizard sys); intervalActive := true;
         alerts := alerts sys; calls := calls sys |}
  | false, true =>
      {| wizard := wizard sys; intervalActive := false;
         alerts := alerts sys; calls := calls sys |}
  | _, _ => sys
  end.

(** [n] firings of the interval, if it is running. *)
Definition elapse (n : nat) (sys : Sys) : Sys :=
  if intervalActive sys then
    {| wizard := Nat.iter n tick (wizard sys); intervalActive := true;
       alerts := alerts sys; calls := calls sys |}
  else sys.

(** [await p]: the requests of [p] are issued, the component renders and
    the interval fires while the promise is pending. *)
Definition await {A} (p : Async A) (env : Env) (clock : Clock) (sys : Sys)
  : Settled A * Sys :=
  let (settled, log) := p env (calls sys) in
  let sys1 :=
    {| wizard := wizard sys; intervalActive := intervalActive sys;
       alerts := alerts sys; calls := log |} in
  (settled, elapse (awaitTicks clock) (render sys1)).

Definition updateData (upd : WizardData -> WizardData) (sys : Sys) : Sys :=
  setState (fun prev => with_data (upd (data prev)) prev) sys.

(** *** The handlers *)


Definition handleGoToStep3 (sys : Sys) : Sys :=
  let state := wizard sys in
  if negb (truthy (dynamicAnswer (data state)))
     || negb (truthy (price (data state)))
  then sys
  else render (setState (fun prev => with_step TECHNICAL_DETAILS prev) sys).

Section Handlers.

Definition handleGoToStep2 (env : Env) (clock : Clock) (sys : Sys) : Sys :=
  let state := wizard sys in
  if negb (truthy (description (data state)))
     || negb (truthy_opt (productImage (data state)))
  then alert "Por favor, adicione uma foto e descrição." sys
  else
    let sys1 :=
      setState (fun prev =>
        with_loadingMessage "Analisando seu produto com IA..."
          (with_isLoading true prev)) sys in
    let proceed := fun (question : string) (sysN : Sys) =>
      let sysQ := updateData (with_dynamicQuestion (Some question)) sysN in
      render (setState (fun prev =>
        with_step DYNAMIC_QUESTION (with_isLoading false prev)) sysQ) in
    (* [stripBase64Prefix] throws on null, inside the [try] *)
    match productImage (data state) with
    | None => proceed "Quais os principais diferenciais deste produto?" sys1
    | Some image =>
        let (settled, sys2) :=
          await (Service.generateFollowUpQuestion
                   (description (data state)) (stripBase64Prefix image))
                env clock sys1 in
        match settled with
        | Fulfilled question => proceed question sys2
        | Rejected error =>
            proceed "Quais os principais diferenciais deste produto?" sys2
        end
    end.

(** [{ ...state.data, productImage: image }] *)
Definition campaignData (d : WizardData) (image : string)
  : Service.CampaignData :=
  {| Service.description := description d;
     Service.dynamicQuestion := dynamicQuestion d;
     Service.dynamicAnswer := dynamicAnswer d;
     Service.price := price d;
     Service.contactPhone := contactPhone d;
     Service.delivery := delivery d;
     Service.location := location d;
     Service.productImage := image |}.

Definition dataUrl (base64 : string) : string :=
  "data:image/jpeg;base64," ++ base64.

Context `{UnicodeTables}.

Definition handleGenerate (env : Env) (clock : Clock) (sys : Sys) : Sys :=
  let state := wizard sys in
  if negb (truthy (contactPhone (data state)))
     || negb (truthy (location (data state)))
  then alert "Preencha os dados de contato." sys
  else
    let sys1 :=
      setState (fun prev =>
        with_loadingMessage "Criando arte viral e copy persuasiva..."
          (with_isLoading true prev)) sys in
    let onError := fun (sysN : Sys) =>
      let sysA :=
        alert "Ocorreu um erro ao gerar o anúncio. Tente novamente." sysN in
      render (setState (fun prev => with_isLoading false prev) sysA) in
    (* [stripBase64Prefix] throws on null, inside the [try] *)
    match productImage (data state) with
    | None => onError sys1
    | Some image =>
        let (settled, sys2) :=
          await (Service.generateCampaign
                   (campaignData (data state) (stripBase64Prefix image)))
                env clock sys1 in
        match settled with
        | Fulfilled res =>
            let sys3 := render (setState (fun prev => with_progress 100 prev) sys2) in
            let sys4 := elapse (graceTicks clock) sys3 in
            render (setState (fun prev =>
              with_step RESULTS
                (with_results
                   (Some {| copy := Some (Service.copy res);
                            bannerSquare := Some (dataUrl (Service.bannerSquare res));
                            bannerStory := Some (dataUrl (Service.bannerStory res));
                            bannerDesign := Some (dataUrl (Service.bannerDesign res)) |})
                   (with_isLoading false prev))) sys4)
        | Rejected error => onError sys2
        end
    end.

(** *** The gated transitions

    The three forward transitions gated on the collected data, the fields
    each one requires (a description and an image; an answer and a price;
    a phone and a location), and the handler that carries it out. *)

Inductive Gate : Type :=
| FromDescription | FromDynamicQuestion | FromTechnicalDetails.

Definition requiredPresent (g : Gate) (d : WizardData) : bool :=
  match g with
  | FromDescription => truthy (description d) && truthy_opt (productImage d)
  | FromDynamicQuestion => truthy (dynamicAnswer d) && truthy (price d)
  | FromTechnicalDetails => truthy (contactPhone d) && truthy (location d)
  end.

Definition advance (g : Gate) (env : Env) (clock : Clock) (sys : Sys) : Sys :=
  match g with
  | FromDescription => handleGoToStep2 env clock sys
  | FromDynamicQuestion => handleGoToStep3 sys
  | FromTechnicalDetails => handleGenerate env clock sys
  end.

(** The alert each handler raises when it refuses the transition. *)
Definition validationPrompt (g : Gate) : list string :=
  match g with
  | FromDescription => ["Por favor, adicione uma foto e descrição."]
  | FromDynamicQuestion => []
  | FromTechnicalDetails => ["Preencha os dados de contato."]
  end.

(** Every value reached from the seed is a whole number of halves. *)
Definition halves (p : Q) : Prop := exists k : Z, (p == k # 2)%Q.

(** The states that differ at most in the progress value. *)
Definition sameButProgress (s1 s2 : WizardState) : Prop :=
  step s1 = step s2
  /\ isLoading s1 = isLoading s2
  /\ loadingMessage s1 = loadingMessage s2
  /\ data s1 = data s2
  /\ results s1 = results s2.

(** A loading cycle: the seed, then [n] firings of the interval. *)
Definition loadingCycle (n : nat) (s : WizardState) : WizardState :=
  Nat.iter n tick (seedProgress s).

End Handlers.

End App.

(** ** A table for the Latin-1 letters

    [toLowerCase] and [normalize('NFD')] restricted to Basic Latin and the
    Latin-1 Supplement (U+00C0..U+00FF, the bytes C3 80..C3 BF); every other
    code point is left as it is.  The examples run the program on it. *)

Module Latin1.

Definition lowerAscii (c : ascii) : ascii :=
  let n := nat_of_ascii c in
  if Nat.leb 65 n && Nat.leb n 90 then ascii_of_nat (n + 32) else c.

(** The second byte of U+00C0..U+00DE, but for the multiplication sign. *)
Definition lowerAfterC3 (c : ascii) : ascii :=
  let n := nat_of_ascii c in
  if Nat.leb 128 n && Nat.leb n 158 && negb (Nat.eqb n 151)
  then ascii_of_nat (n + 32) else c.

Fixpoint toLowerCase (s : string) : string :=
  match s with
  | String c1 (String c2 rest as tl) =>
      if Nat.eqb (nat_of_ascii c1) 195
      then String c1 (String (lowerAfterC3 c2) (toLowerCase rest))
      else String (lowerAscii c1) (toLowerCase tl)
  | String c EmptyString => String (lowerAscii c) EmptyString
  | EmptyString => EmptyString
  end.

(** Canonical decompositions of the capital letters U+00C0..U+00DD, by
    the second byte of the letter: the base letter and the second byte of
    its combining mark (after CC). *)
Definition capitalDecompositions : list (nat * (nat * nat)) :=
  [ (128, (65, 128)); (129, (65, 129)); (130, (65, 130)); (131, (65, 131));
    (132, (65, 136)); (133, (65, 138)); (135, (67, 167));
    (136, (69, 128)); (137, (69, 129)); (138, (69, 130)); (139, (69, 136));
    (140, (73, 128)); (141, (73, 129)); (142, (73, 130)); (143, (73, 136));
    (145, (78, 131));
    (146, (79, 128)); (147, (79, 129)); (148, (79, 130)); (149, (79, 131));
    (150, (79, 136));
    (153, (85, 128)); (154, (85, 129)); (155, (85, 130)); (156, (85, 136));
    (157, (89, 129)) ].

(** The small letters are 32 further, and U+00FF is y with diaeresis. *)
Definition decompositions : list (nat * (nat * nat)) :=
  (capitalDecompositions
   ++ map (fun e => (fst e + 32, (fst (snd e) + 32, snd (snd e))))
          capitalDecompositions
   ++ [ (191, (121, 136)) ])%list.

Definition decompose (second : nat) : option (nat * nat) :=
  option_map snd (find (fun e => Nat.eqb (fst e) second) decompositions).

Fixpoint normalizeNFD (s : string) : string :=
  match s with
  | String c1 (String c2 rest as tl) =>
      if Nat.eqb (nat_of_ascii c1) 195 then
        match decompose (nat_of_ascii c2) with
        | Some (base, mark) =>
            String (ascii_of_nat base)
              (String (ascii_of_nat 204)
                 (String (ascii_of_nat mark) (normalizeNFD rest)))
        | None => String c1 (String c2 (normalizeNFD rest))
        end
      else String c1 (normalizeNFD tl)
  | _ => s
  end.

Definition tables : UnicodeTables :=
  {| Js.toLowerCase := toLowerCase; Js.normalizeNFD := normalizeNFD |}.

End Latin1.

(** ** Sample inputs and gateways *)

Module Samples.

Definition tenis : Service.CampaignData :=
  {| Service.description := "Tênis Nike Air";
     Service.dynamicQuestion := Some "Qual a numeração?";
     Service.dynamicAnswer := "Do 38 ao 42";
     Service.price := "R$ 299,90";
     Service.contactPhone := "(11) 99999-0000";
     Service.delivery := true;
     Service.location := "Centro, São Paulo";
     Service.productImage := "/9j/4AAQSkZJRg==" |}.

Definition bolo : Service.CampaignData :=
  {| Service.description := "Bolo de Pote de Morango";
     Service.dynamicQuestion := None;
     Service.dynamicAnswer := "Morango e chocolate";
     Service.price := "R$ 12,00";
     Service.contactPhone := "(11) 98888-0000";
     Service.delivery := false;
     Service.location := "Lapa";
     Service.productImage := "/9j/4AAQSkZJRg==" |}.

(** The same product, asked about with another question. *)
Definition tenisOtherQuestion : Service.CampaignData :=
  {| Service.description := "Tênis Nike Air";
     Service.dynamicQuestion := Some "Qual a cor?";
     Service.dynamicAnswer := "Do 38 ao 42";
     Service.price := "R$ 299,90";
     Service.contactPhone := "(11) 99999-0000";
     Service.delivery := true;
     Service.location := "Centro, São Paulo";
     Service.productImage := "/9j/4AAQSkZJRg==" |}.

Definition imageResponse (base64 : string) : Response :=
  {| text := None;
     candidates := Some
       [ {| content := Some
              {| role := Some "model";
                 parts := Some
                   [ inlineDataPart {| mimeType := "image/png";
                                       data := base64 |} ] |} |} ] |}.

Definition textResponse (t : string) : Response :=
  {| text := Some t; candidates := None |}.

(** A gateway that answers text requests with [t] and image edits with the
    image [EDITED]. *)
Definition upGateway (t : string) (n : nat) (req : Request) : Settled Response :=
  match contents req with
  | ContentsObject _ => Fulfilled (imageResponse "EDITED")
  | _ => Fulfilled (textResponse t)
  end.

(** An unreachable gateway. *)
Definition downGateway (n : nat) (req : Request) : Settled Response :=
  Rejected (Error "fetch failed").

(** The copy call returns an empty text; the search and the image edits
    are rejected. *)
Definition degradedGateway (n : nat) (req : Request) : Settled Response :=
  match contents req, tools req with
  | ContentsString _, [] => Fulfilled (textResponse EmptyString)
  | _, _ => Rejected (Error "503")
  end.

(** Only the fourth request of a run is rejected. *)
Definition fourthDownGateway (n : nat) (req : Request) : Settled Response :=
  if Nat.eqb n 3 then Rejected (Error "503") else upGateway "Oferta!" n req.

Definition envUp : Env :=
  {| API_KEY := Some "AIza-key"; gateway := upGateway "Oferta!" |}.

Definition envDown : Env :=
  {| API_KEY := Some "AIza-key"; gateway := downGateway |}.

Definition envDegraded : Env :=
  {| API_KEY := Some "AIza-key"; gateway := degradedGateway |}.

Definition envFourthDown : Env :=
  {| API_KEY := Some "AIza-key"; gateway := fourthDownGateway |}.

(** No key in the environment; the gateway itself works. *)
Definition envNoKey : Env :=
  {| API_KEY := None; gateway := upGateway "Oferta!" |}.

(** An empty key. *)
Definition envEmptyKey : Env :=
  {| API_KEY := Some EmptyString; gateway := upGateway "Qual a voltagem?" |}.

Definition filled : App.WizardData :=
  {| App.productImage := Some "data:image/jpeg;base64,/9j/4AAQSkZJRg==";
     App.description := "Tênis Nike Air";
     App.dynamicQuestion := Some "Qual a numeração?";
     App.dynamicAnswer := "Do 38 ao 42";
     App.price := "R$ 299,90";
     App.contactPhone := "(11) 99999-0000";
     App.delivery := true;
     App.location := "Centro, São Paulo" |}.

(** The description and the image are in; nothing else yet. *)
Definition described : App.WizardData :=
  {| App.productImage := Some "data:image/jpeg;base64,/9j/4AAQSkZJRg==";
     App.description := "Tênis Nike Air";
     App.dynamicQuestion := Some "Qual a numeração?";
     App.dynamicAnswer := EmptyString;
     App.price := EmptyString;
     App.contactPhone := EmptyString;
     App.delivery := false;
     App.location := EmptyString |}.

(** An idle session on step [st] with the data [d]. *)
Definition session (st : App.Step) (d : App.WizardData) : App.Sys :=
  {| App.wizard := App.with_data d (App.with_step st App.initialState);
     App.intervalActive := false;
     App.alerts := [];
     App.calls := [] |}.

Definition clock : App.Clock :=
  {| App.awaitTicks := 40; App.graceTicks := 3 |}.

End Samples.

(** ** App.tsx: the views, the inputs and the buttons *)

Module Ui.

Import App.

(** The two models the service addresses. *)
Definition textModel : string := "gemini-3-flash-preview".

Definition imageModel : string := "gemini-2.5-flash-image".

(** [{ ...prev.data, [key]: value }], key by key *)
Definition with_productImage (v : option string) (d : WizardData) : WizardData :=
  {| productImage := v; description := description d;
     dynamicQuestion := dynamicQuestion d; dynamicAnswer := dynamicAnswer d;
     price := price d; contactPhone := contactPhone d;
     delivery := delivery d; location := location d |}.



Definition with_price (v : string) (d : WizardData) : WizardData :=
  {| productImage := productImage d; description := description d;
     dynamicQuestion := dynamicQuestion d; dynamicAnswer := dynamicAnswer d;
     price := v; contactPhone := contactPhone d;
     delivery := delivery d; location := location d |}.




(** The character class [\d]. *)
Definition isDigit (c : ascii) : bool :=
  let n := nat_of_ascii c in Nat.leb 48 n && Nat.leb n 57.

(** [value.replace(/\D/g, empty)]: no byte of a multi-byte character is a
    digit, so the bytes that stay are the digits of the text. *)
Fixpoint digitsOnly (s : string) : string :=
  match s with
  | EmptyString => EmptyString
  | String c rest =>
      if isDigit c then String c (digitsOnly rest) else digitsOnly rest
  end.

(** The strings of [[a-z]*]. *)
Fixpoint allLowerLetters (s : string) : bool :=
  match s with
  | EmptyString => true
  | String c rest => isLowerLetter c && allLowerLetters rest
  end.

(** The strings of [[0-9]*]. *)
Fixpoint allDigits (s : string) : bool :=
  match s with
  | EmptyString => true
  | String c rest => isDigit c && allDigits rest
  end.

(** The number formatting of the runtime: for a non-empty string of digits,
    [(parseInt(raw, 10) / 100).toLocaleString('pt-BR', { style: 'currency',
    currency: 'BRL' })].  The program is stated over any such rendering. *)
Class Intl := { formatBRL : string -> string }.

(** [renderLoading]: the text shown above the progress bar. *)
Definition loadingText (state : WizardState) : string :=
  match step state with
  | PROCESSING | TECHNICAL_DETAILS =>
      if Qltb (progress state) 20 then "Pesquisando tendências no Designi..."
      else if Qltb (progress state) 50 then "Escrevendo copy persuasiva..."
      else if Qltb (progress state) 80
           then "Ajustando iluminação de estúdio (IA)..."
           else "Finalizando renderização 8k..."
  | _ => loadingMessage state
  end.



(** The [disabled] attribute of the button of each step. *)
Definition continue1Disabled (state : WizardState) : bool :=
  negb (truthy (description (data state)))
  || negb (truthy_opt (productImage (data state))).

Definition continue2Disabled (state : WizardState) : bool :=
  negb (truthy (dynamicAnswer (data state)))
  || negb (truthy (price (data state))).

Definition generateDisabled (state : WizardState) : bool :=
  negb (truthy (contactPhone (data state)))
  || negb (truthy (location (data state))).




Section Dispatch.

Context `{UnicodeTables} `{Intl}.

(** The call [handleGoToStep2] awaits, and the question it stores: the one
    the call is fulfilled with, or the fallback of its [catch]. *)
Definition questionRun (env : Env) (sys : Sys) (image : string)
  : Settled string * list Request :=
  Service.generateFollowUpQuestion (description (data (wizard sys)))
    (stripBase64Prefix image) env (calls sys).

Definition storedQuestion (env : Env) (sys : Sys) (image : string) : string :=
  match fst (questionRun env sys image) with
  | Fulfilled question => question
  | Rejected _ => "Quais os principais diferenciais deste produto?"
  end.

(** The call [handleGenerate] awaits, and the results it stores. *)
Definition campaignRun (env : Env) (sys : Sys) (image : string)
  : Settled Service.AdGenerationResult * list Request :=
  Service.generateCampaign
    (campaignData (data (wizard sys)) (stripBase64Prefix image))
    env (calls sys).

Definition storedResults (res : Service.AdGenerationResult) : Results :=
  {| copy := Some (Service.copy res);
     bannerSquare := Some (dataUrl (Service.bannerSquare res));
     bannerStory := Some (dataUrl (Service.bannerStory res));
     bannerDesign := Some (dataUrl (Service.bannerDesign res)) |}.

Definition handlePriceChange (value : string) (sys : Sys) : Sys :=
  let rawValue := digitsOnly value in
  if negb (truthy rawValue) then updateData (with_price EmptyString) sys
  else
    let formatted := formatBRL rawValue in
    updateData (with_price formatted) sys.



End Dispatch.

(** The progress values a bar can show. *)
Definition inRange (s : WizardState) : Prop :=
  (0 <= progress s <= 100)%Q.

Definition generationError : string :=
  "Ocorreu um erro ao gerar o anúncio. Tente novamente.".



Definition callerFallbackQuestion : string :=
  "Quais os principais diferenciais deste produto?".


End Ui.

(** ** More sample inputs *)

Module MoreSamples.

Import Samples.

(** Text requests are answered; every image edit is rejected. *)
Definition imagesDownGateway (n : nat) (req : Request) : Settled Response :=
  if String.eqb (model req) Ui.imageModel then Rejected (Error "503")
  else Fulfilled (textResponse "Oferta!").

Definition envImagesDown : Env :=
  {| API_KEY := Some "AIza-key"; gateway := imagesDownGateway |}.

(** The details step, with everything filled in but the image. *)
Definition withoutImage : App.WizardData :=
  Ui.with_productImage None filled.

End MoreSamples.

(** * Properties *)

(** ** JavaScript strings *)

Example includes_ex : includes "de pote" "bolo de pote de morango" = true.
Proof. reflexivity. Qed.

Example trim_ex :
  trim (nl ++ "  Qual a voltagem? " ++ bytes [194; 160]) = "Qual a voltagem?".
Proof. reflexivity. Qed.

Example trim_blank_ex : trim ("  " ++ nl) = EmptyString.
Proof. reflexivity. Qed.

Example stripCombiningMarks_ex :
  stripCombiningMarks
    ("bo" ++ bytes [204; 130] ++ "lo de po" ++ bytes [204; 129] ++ "te")
  = "bolo de pote".
Proof. reflexivity. Qed.

Example normalize_latin1_ex :
  @Service.normalize Latin1.tables "BÔLO de PÓTE com Açaí" = "bolo de pote com acai".
Proof. reflexivity. Qed.

Example stripBase64Prefix_ex :
  App.stripBase64Prefix "data:image/png;base64,iVBORw0KGgo=" = "iVBORw0KGgo=".
Proof. reflexivity. Qed.

Example stripBase64Prefix_none_ex :
  App.stripBase64Prefix "data:image/;base64,AAAA" = "data:image/;base64,AAAA".
Proof. reflexivity. Qed.

(** ** The orchestrator *)

Section ServiceProperties.

Import Service.

Context `{UnicodeTables}.

Lemma truthy_or_else (a b : string) :
  truthy b = true -> truthy (or_else a b) = true.
Proof.
  intros Hb. unfold or_else. destruct (truthy a) eqn:Ha; assumption.
Qed.

Lemma truthy_or_else_opt (o : option string) (d : string) :
  truthy d = true -> truthy (or_else_opt o d) = true.
Proof.
  intros Hd. destruct o as [s|]; simpl; [apply truthy_or_else|]; assumption.
Qed.

Lemma truthy_nonempty (s : string) : truthy s = true <-> s <> EmptyString.
Proof.
  destruct s; simpl; split; intros; congruence.
Qed.

Lemma generateBanner_run imageBase64 description type contactInfo price designTrend
      (env : Env) (log : list Request) :
  let req :=
    bannerRequest imageBase64
      (bannerPrompt description type contactInfo price designTrend) in
  generateBanner imageBase64 description type contactInfo price designTrend env log
  = (Fulfilled (bannerOf imageBase64 (gateway env (List.length log) req)),
     (log ++ [req])%list).
Proof.
  intros req. unfold generateBanner, tryCatch, bind, generateContent, bannerOf.
  fold req. destruct (gateway env (List.length log) req) as [response|e].
  - destruct (firstInlineData (firstCandidateParts response)); reflexivity.
  - reflexivity.
Qed.

Lemma getDesignTrends_run description (env : Env) (log : list Request) :
  getDesignTrends description env log
  = if isKnownTemplate description
    then (Fulfilled TEMPLATE_BOLO_POTE_V1, log)
    else (Fulfilled
            (trendOf (gateway env (List.length log) (trendRequest description))),
          (log ++ [trendRequest description])%list).
Proof.
  unfold getDesignTrends, isKnownTemplate.
  destruct (includes "bolo de pote" (normalize description)
            || includes "bolo no pote" (normalize description)).
  - reflexivity.
  - unfold tryCatch, bind, generateContent, trendOf.
    destruct (gateway env (List.length log) (trendRequest description));
      reflexivity.
Qed.

Lemma generateCampaign_no_key d (env : Env) (log : list Request) :
  truthy (apiKey env) = false ->
  generateCampaign d env log = (Rejected (Error "API Key missing"), log).
Proof.
  intros Hkey. unfold generateCampaign, bind, ask. rewrite Hkey. reflexivity.
Qed.

Lemma generateCampaign_copy_rejected d (env : Env) (log : list Request) e :
  truthy (apiKey env) = true ->
  copyOutcome d env log = Rejected e ->
  generateCampaign d env log
  = (Rejected e, (snd (trendStage d env log) ++ [copyRequest d])%list).
Proof.
  intros Hkey Hcopy. unfold copyOutcome in Hcopy.
  unfold generateCampaign, bind at 1, ask. rewrite Hkey. cbn [negb]. cbv beta iota.
  unfold bind at 1, all2. rewrite getDesignTrends_run.
  unfold trendStage in *.
  destruct (isKnownTemplate (description d)); simpl in *;
    unfold generateContent; rewrite Hcopy; reflexivity.
Qed.

Lemma generateCampaign_run d (env : Env) (log : list Request) copyResponse :
  truthy (apiKey env) = true ->
  copyOutcome d env log = Fulfilled copyResponse ->
  let designTrend := fst (trendStage d env log) in
  let log1 := (snd (trendStage d env log) ++ [copyRequest d])%list in
  let n := List.length log1 in
  generateCampaign d env log
  = (Fulfilled
       {| copy := or_else_opt (text copyResponse) copyPlaceholder;
          bannerSquare :=
            bannerOf (productImage d) (gateway env n (squareRequest d));
          bannerStory :=
            bannerOf (productImage d) (gateway env (n + 1) (storyRequest d));
          bannerDesign :=
            bannerOf (productImage d)
              (gateway env (n + 2) (designRequest d designTrend)) |},
     (log1 ++ [squareRequest d; storyRequest d;
               designRequest d designTrend])%list).
Proof.
  intros Hkey Hcopy designTrend log1 n. unfold copyOutcome in Hcopy.
  unfold generateCampaign, bind at 1, ask. rewrite Hkey. cbn [negb]. cbv beta iota.
  unfold bind at 1, all2. rewrite getDesignTrends_run.
  assert (Hstage :
    (if isKnownTemplate (description d)
     then (Fulfilled TEMPLATE_BOLO_POTE_V1, log)
     else (Fulfilled
             (trendOf (gateway env (List.length log)
                         (trendRequest (description d)))),
           (log ++ [trendRequest (description d)])%list))
    = (Fulfilled designTrend, snd (trendStage d env log))).
  { subst designTrend. unfold trendStage.
    destruct (isKnownTemplate (description d)); reflexivity. }
  rewrite Hstage. unfold generateContent at 1. rewrite Hcopy.
  fold log1. unfold bind, all3. rewrite !generateBanner_run.
  unfold ret. fold (squareRequest d) (storyRequest d) (designRequest d designTrend).
  fold n.
  replace (List.length (log1 ++ [squareRequest d])%list) with (n + 1)
    by (subst n; rewrite length_app; reflexivity).
  replace (List.length ((log1 ++ [squareRequest d]) ++ [storyRequest d])%list)
    with (n + 2)
    by (subst n; rewrite !length_app; simpl; lia).
  rewrite <- !app_assoc. reflexivity.
Qed.

End ServiceProperties.

Section CampaignClaims.

Import Service.

Context `{UnicodeTables}.

(** C3 (amended): [generateCampaign] rejects as a whole when no API key is
    configured, before any gateway request and whatever the image; with a
    key configured, whenever the copy call returns a response the
    operation is fulfilled, whatever the trend lookup and the three image
    edits do. *)
Theorem generateCampaign_failure_conditions
    (d : CampaignData) (env : Env) (log : list Request) :
  (truthy (apiKey env) = false ->
   generateCampaign d env log = (Rejected (Error "API Key missing"), log))
  /\ (truthy (apiKey env) = true ->
      forall copyResponse,
        copyOutcome d env log = Fulfilled copyResponse ->
        isFulfilled (fst (generateCampaign d env log)) = true).
Proof.
  split.
  - apply generateCampaign_no_key.
  - intros Hkey copyResponse Hcopy.
    rewrite (generateCampaign_run d env log Hkey Hcopy). reflexivity.
Qed.

(** C5: every image-edit call has its own fallback.  [generateBanner] is
    always fulfilled, with the original image when its call is rejected or
    its response has no image payload; and in a campaign that reaches the
    banners, each of the three slots is decided by the outcome of its own
    call alone, the operation being fulfilled whatever these outcomes. *)
Theorem banner_fallbacks_are_independent
    (d : CampaignData) (env : Env) (log : list Request) copyResponse :
  truthy (apiKey env) = true ->
  copyOutcome d env log = Fulfilled copyResponse ->
  (forall image description type contactInfo price designTrend env' log',
      exists banner,
        fst (generateBanner image description type contactInfo price
               designTrend env' log') = Fulfilled banner
        /\ (forall e,
               gateway env' (List.length log')
                 (bannerRequest image
                    (bannerPrompt description type contactInfo price designTrend))
               = Rejected e -> banner = image)
        /\ (forall response,
               gateway env' (List.length log')
                 (bannerRequest image
                    (bannerPrompt description type contactInfo price designTrend))
               = Fulfilled response ->
               firstInlineData (firstCandidateParts response) = None ->
               banner = image))
  /\ (let designTrend := fst (trendStage d env log) in
      let n := S (List.length (snd (trendStage d env log))) in
      exists r,
        fst (generateCampaign d env log) = Fulfilled r
        /\ bannerSquare r
           = bannerOf (productImage d) (gateway env n (squareRequest d))
        /\ bannerStory r
           = bannerOf (productImage d) (gateway env (n + 1) (storyRequest d))
        /\ bannerDesign r
           = bannerOf (productImage d)
               (gateway env (n + 2) (designRequest d designTrend))).
Proof.
  intros Hkey Hcopy. split.
  - intros image description type contactInfo price designTrend env' log'.
    rewrite generateBanner_run. cbn [fst].
    eexists. split; [reflexivity|]. split.
    + intros e He. rewrite He. reflexivity.
    + intros response Hr Hnone. rewrite Hr. cbn [bannerOf]. rewrite Hnone.
      reflexivity.
  - intros designTrend n.
    rewrite (generateCampaign_run d env log Hkey Hcopy). cbn [fst].
    assert (Hn : List.length (snd (trendStage d env log) ++ [copyRequest d])%list = n).
    { subst n. rewrite length_app. simpl. lia. }
    rewrite Hn. eexists. split; [reflexivity|]. cbn. auto.
Qed.

(** C4: a description whose normalization contains the trigger phrase
    [bolo de pote] makes the trend lookup return the sentinel without
    issuing any gateway request; and no request of a campaign for such a
    description enables the search tool. *)
Theorem getDesignTrends_short_circuit
    (description : string) (env : Env) (log : list Request) :
  includes "bolo de pote" (normalize description) = true ->
  getDesignTrends description env log = (Fulfilled TEMPLATE_BOLO_POTE_V1, log)
  /\ (forall d,
        Service.description d = description ->
        exists issued,
          snd (generateCampaign d env log) = (log ++ issued)%list
          /\ Forall (fun req => tools req = []) issued).
Proof.
  intros Hinc.
  assert (Hknown : isKnownTemplate description = true).
  { unfold isKnownTemplate. rewrite Hinc. reflexivity. }
  split.
  - rewrite getDesignTrends_run, Hknown. reflexivity.
  - intros d Hd. subst description.
    destruct (truthy (apiKey env)) eqn:Hkey.
    + destruct (copyOutcome d env log) as [copyResponse|e] eqn:Hcopy.
      * rewrite (generateCampaign_run d env log Hkey Hcopy). cbn [snd].
        unfold trendStage. rewrite Hknown. cbn [fst snd].
        rewrite <- app_assoc. eexists. split; [reflexivity|].
        repeat constructor.
      * rewrite (generateCampaign_copy_rejected d env log Hkey Hcopy). cbn [snd].
        unfold trendStage. rewrite Hknown. cbn [snd].
        eexists. split; [reflexivity|]. repeat constructor.
    + rewrite (generateCampaign_no_key d env log Hkey). cbn [snd].
      exists []. split; [symmetry; apply app_nil_r|constructor].
Qed.

(** C10: [generateCampaign] never reads [dynamicQuestion]: on two inputs
    that differ only there, and with the same environment and log, it
    issues the same requests (hence the same prompts) and settles to the
    same result. *)
Theorem generateCampaign_ignores_dynamicQuestion
    (d1 d2 : CampaignData) (env : Env) (log : list Request) :
  sameButDynamicQuestion d1 d2 ->
  generateCampaign d1 env log = generateCampaign d2 env log.
Proof.
  intros (Hdesc & Hans & Hprice & Hphone & Hdel & Hloc & Himg).
  destruct d1, d2. cbn in Hdesc, Hans, Hprice, Hphone, Hdel, Hloc, Himg.
  subst. reflexivity.
Qed.

End CampaignClaims.

Section QuestionClaims.

Import Service.

Lemma generateFollowUpQuestion_no_key description imageBase64
      (env : Env) (log : list Request) :
  truthy (apiKey env) = false ->
  generateFollowUpQuestion description imageBase64 env log
  = (Rejected (Error "API Key missing"), log).
Proof.
  intros Hkey. unfold generateFollowUpQuestion, bind, ask. rewrite Hkey.
  reflexivity.
Qed.

(** The question, given how the gateway call settled. *)
Lemma generateFollowUpQuestion_run description imageBase64
      (env : Env) (log : list Request) :
  truthy (apiKey env) = true ->
  let req := questionRequest (questionPrompt description) imageBase64 in
  generateFollowUpQuestion description imageBase64 env log
  = (Fulfilled
       match gateway env (List.length log) req with
       | Fulfilled response =>
           or_else_opt (trim_opt (text response)) questionFallbackEmpty
       | Rejected _ => questionFallbackError
       end,
     (log ++ [req])%list).
Proof.
  intros Hkey req.
  unfold generateFollowUpQuestion, bind at 1, ask. rewrite Hkey.
  cbn [negb]. cbv beta iota.
  unfold tryCatch, bind, generateContent. fold req.
  destruct (gateway env (List.length log) req); reflexivity.
Qed.

(** C2 (amended): with an API key configured, [generateFollowUpQuestion]
    is fulfilled with a non-empty string whatever the gateway does: the
    trimmed text when there is one, a fixed question when the text is
    missing or blank, and another fixed question when the call is
    rejected; the two fixed questions differ. *)
Theorem generateFollowUpQuestion_fulfilled_with_key
    (description imageBase64 : string) (env : Env) (log : list Request) :
  truthy (apiKey env) = true ->
  let outcome :=
    gateway env (List.length log)
      (questionRequest (questionPrompt description) imageBase64) in
  exists question,
    fst (generateFollowUpQuestion description imageBase64 env log)
    = Fulfilled question
    /\ question <> EmptyString
    /\ (forall response t,
          outcome = Fulfilled response ->
          trim_opt (text response) = Some t -> t <> EmptyString ->
          question = t)
    /\ (forall response,
          outcome = Fulfilled response ->
          truthy_opt (trim_opt (text response)) = false ->
          question = questionFallbackEmpty)
    /\ (forall e, outcome = Rejected e -> question = questionFallbackError)
    /\ questionFallbackEmpty <> questionFallbackError.
Proof.
  intros Hkey outcome.
  rewrite (generateFollowUpQuestion_run description imageBase64 env log Hkey).
  cbn [fst]. fold outcome. eexists. split; [reflexivity|].
  split; [|split; [|split; [|split]]].
  - apply truthy_nonempty. destruct outcome as [response|e].
    + apply truthy_or_else_opt. reflexivity.
    + reflexivity.
  - intros response t Hout Htext Ht. rewrite Hout, Htext.
    apply truthy_nonempty in Ht. cbn [or_else_opt]. unfold or_else.
    rewrite Ht. reflexivity.
  - intros response Hout Hblank. rewrite Hout.
    destruct (trim_opt (text response)) as [t|]; [|reflexivity].
    cbn [truthy_opt] in Hblank. cbn [or_else_opt]. unfold or_else.
    rewrite Hblank. reflexivity.
  - intros e Hout. rewrite Hout. reflexivity.
  - discriminate.
Qed.

End QuestionClaims.

(** ** The progress simulator *)

Section ProgressClaims.

Import App.

Local Open Scope Q_scope.

Lemma Qle_bool_false (x y : Q) : Qle_bool x y = false -> y < x.
Proof.
  intros Hb. apply Qnot_le_lt. intros Hle.
  apply Qle_bool_iff in Hle. congruence.
Qed.

Lemma Qltb_true (x y : Q) : Qltb x y = true -> x < y.
Proof.
  unfold Qltb. intros Hb. apply Qle_bool_false.
  destruct (Qle_bool y x); [discriminate|reflexivity].
Qed.

Lemma Qltb_false (x y : Q) : Qltb x y = false -> y <= x.
Proof.
  unfold Qltb. intros Hb. apply Qle_bool_iff.
  destruct (Qle_bool y x); [reflexivity|discriminate].
Qed.

Lemma Qltb_of_lt (x y : Q) : x < y -> Qltb x y = true.
Proof.
  intros Hlt. destruct (Qltb x y) eqn:Hb; [reflexivity|].
  apply Qltb_false in Hb. lra.
Qed.

Lemma Qltb_of_le (x y : Q) : y <= x -> Qltb x y = false.
Proof.
  intros Hle. destruct (Qltb x y) eqn:Hb; [|reflexivity].
  apply Qltb_true in Hb. lra.
Qed.

Lemma Qle_bool_of_lt (x y : Q) : y < x -> Qle_bool x y = false.
Proof.
  intros Hlt. destruct (Qle_bool x y) eqn:Hb; [|reflexivity].
  apply Qle_bool_iff in Hb. lra.
Qed.

(** The progress value after one firing, by the band it was in. *)
Lemma tick_below_40 prev :
  progress prev < 40 -> tick prev = with_progress (progress prev + 2) prev.
Proof.
  intros Hlt. unfold tick.
  rewrite Qle_bool_of_lt by lra. rewrite Qltb_of_lt by assumption. reflexivity.
Qed.

Lemma tick_below_70 prev :
  40 <= progress prev -> progress prev < 70 ->
  tick prev = with_progress (progress prev + 1) prev.
Proof.
  intros Hle Hlt. unfold tick.
  rewrite Qle_bool_of_lt by lra. rewrite Qltb_of_le by assumption.
  rewrite Qltb_of_lt by assumption. reflexivity.
Qed.

Lemma tick_below_95 prev :
  70 <= progress prev -> progress prev < 95 ->
  tick prev = with_progress (progress prev + (1 # 2)) prev.
Proof.
  intros Hle Hlt. unfold tick.
  rewrite Qle_bool_of_lt by lra. rewrite !Qltb_of_le by lra. reflexivity.
Qed.

Lemma tick_at_ceiling prev : 95 <= progress prev -> tick prev = prev.
Proof.
  intros Hle. unfold tick. apply Qle_bool_iff in Hle. rewrite Hle. reflexivity.
Qed.

Lemma tick_cases prev :
  (progress prev < 40 /\ tick prev = with_progress (progress prev + 2) prev)
  \/ (40 <= progress prev < 70
      /\ tick prev = with_progress (progress prev + 1) prev)
  \/ (70 <= progress prev < 95
      /\ tick prev = with_progress (progress prev + (1 # 2)) prev)
  \/ (95 <= progress prev /\ tick prev = prev).
Proof.
  destruct (Qlt_le_dec (progress prev) 40) as [H40|H40].
  { left. split; [assumption|apply tick_below_40; assumption]. }
  destruct (Qlt_le_dec (progress prev) 70) as [H70|H70].
  { right; left. split; [split; assumption|apply tick_below_70; assumption]. }
  destruct (Qlt_le_dec (progress prev) 95) as [H95|H95].
  { right; right; left.
    split; [split; assumption|apply tick_below_95; assumption]. }
  right; right; right. split; [assumption|apply tick_at_ceiling; assumption].
Qed.

Lemma tick_nondecreasing prev : progress prev <= progress (tick prev).
Proof.
  destruct (tick_cases prev) as [[_ ->]|[[_ ->]|[[_ ->]|[_ ->]]]];
    cbn [progress with_progress]; lra.
Qed.

Lemma tick_sameButProgress prev : sameButProgress (tick prev) prev.
Proof.
  destruct (tick_cases prev) as [[_ ->]|[[_ ->]|[[_ ->]|[_ ->]]]];
    repeat split.
Qed.

Lemma halves_plus (p : Q) (m : Z) : halves p -> halves (p + (m # 2)).
Proof.
  intros [k Hk]. exists (k + m)%Z. rewrite Hk.
  unfold Qeq, Qplus. simpl. lia.
Qed.

Lemma below_ceiling_in_halves (p : Q) :
  halves p -> p < 95 -> p + (1 # 2) <= 95.
Proof.
  intros [k Hk] Hlt. rewrite Hk in *.
  unfold Qlt, Qle, Qplus in *. simpl in *. lia.
Qed.

Lemma tick_keeps_ceiling prev :
  halves (progress prev) -> progress prev <= 95 ->
  halves (progress (tick prev)) /\ progress (tick prev) <= 95.
Proof.
  intros Hh Hle.
  destruct (tick_cases prev) as [[Hb ->]|[[Hb ->]|[[Hb ->]|[Hb ->]]]];
    cbn [progress with_progress].
  - split; [|lra].
    destruct (halves_plus 4 Hh) as [k Hk]. exists k. rewrite <- Hk.
    unfold Qeq, Qplus. simpl. lia.
  - split; [|lra].
    destruct (halves_plus 2 Hh) as [k Hk]. exists k. rewrite <- Hk.
    unfold Qeq, Qplus. simpl. lia.
  - split; [apply halves_plus; assumption|].
    apply below_ceiling_in_halves; [assumption|lra].
  - split; assumption.
Qed.

Lemma loadingCycle_invariant (n : nat) (s : WizardState) :
  halves (progress (loadingCycle n s))
  /\ 5 <= progress (loadingCycle n s) <= 95.
Proof.
  unfold loadingCycle. induction n as [|n IH]; cbn [Nat.iter nat_rect].
  - change (progress (seedProgress s)) with 5. split; [|lra].
    exists 10%Z. reflexivity.
  - destruct IH as [Hh [Hlo Hhi]].
    destruct (tick_keeps_ceiling _ Hh Hhi) as [Hh' Hhi'].
    split; [assumption|]. split; [|assumption].
    eapply Qle_trans; [exact Hlo|apply tick_nondecreasing].
Qed.

(** C8: the progress value is seeded to 5 when loading starts; a firing of
    the interval never decreases it, adding 2 below 40, 1 from 40 to below
    70, a half from 70 to below 95 and nothing from 95 on; and in a loading
    cycle it stays within the 95 ceiling, however many times the interval
    fires, until the caller sets it to 100, where the interval leaves it. *)
Theorem progress_simulation (s : WizardState) :
  progress (seedProgress s) == 5
  /\ (forall sys,
        isLoading (wizard sys) = true -> intervalActive sys = false ->
        wizard (render sys) = seedProgress (wizard sys)
        /\ intervalActive (render sys) = true)
  /\ (forall prev, progress prev <= progress (tick prev))
  /\ (forall prev,
        progress prev < 40 -> progress (tick prev) == progress prev + 2)
  /\ (forall prev,
        40 <= progress prev -> progress prev < 70 ->
        progress (tick prev) == progress prev + 1)
  /\ (forall prev,
        70 <= progress prev -> progress prev < 95 ->
        progress (tick prev) == progress prev + (1 # 2))
  /\ (forall prev, 95 <= progress prev -> tick prev = prev)
  /\ (forall n, progress (loadingCycle n s) <= 95)
  /\ (forall n m,
        progress (Nat.iter m tick (with_progress 100 (loadingCycle n s)))
        == 100).
Proof.
  split; [reflexivity|].
  split.
  { intros sys Hload Hidle. unfold render. rewrite Hload, Hidle.
    split; reflexivity. }
  split; [exact tick_nondecreasing|].
  split; [intros prev Hb; rewrite tick_below_40 by assumption; reflexivity|].
  split; [intros prev Hlo Hhi; rewrite tick_below_70 by assumption;
          reflexivity|].
  split; [intros prev Hlo Hhi; rewrite tick_below_95 by assumption;
          reflexivity|].
  split; [exact tick_at_ceiling|].
  split; [intros n; apply loadingCycle_invariant|].
  intros n m. induction m as [|m IH]; cbn [Nat.iter nat_rect].
  - reflexivity.
  - rewrite tick_at_ceiling; [assumption|]. rewrite IH. lra.
Qed.

End ProgressClaims.

(** ** The wizard *)

Section WizardClaims.

Import App.

Context `{UnicodeTables}.

Lemma sameButProgress_refl s : sameButProgress s s.
Proof. repeat split. Qed.

Lemma sameButProgress_trans s1 s2 s3 :
  sameButProgress s1 s2 -> sameButProgress s2 s3 -> sameButProgress s1 s3.
Proof.
  intros (A1 & A2 & A3 & A4 & A5) (B1 & B2 & B3 & B4 & B5).
  repeat split; congruence.
Qed.

Lemma ticks_sameButProgress n s : sameButProgress (Nat.iter n tick s) s.
Proof.
  induction n as [|n IH]; cbn [Nat.iter nat_rect].
  - apply sameButProgress_refl.
  - eapply sameButProgress_trans; [apply tick_sameButProgress|exact IH].
Qed.

(** A render and the firings of the interval touch the progress only. *)
Lemma render_frame sys :
  sameButProgress (wizard (render sys)) (wizard sys)
  /\ alerts (render sys) = alerts sys
  /\ calls (render sys) = calls sys.
Proof.
  unfold render.
  destruct (isLoading (wizard sys)), (intervalActive sys); repeat split.
Qed.

Lemma elapse_frame n sys :
  sameButProgress (wizard (elapse n sys)) (wizard sys)
  /\ alerts (elapse n sys) = alerts sys
  /\ calls (elapse n sys) = calls sys.
Proof.
  unfold elapse. destruct (intervalActive sys); cbn [wizard alerts calls].
  - split; [apply ticks_sameButProgress|split; reflexivity].
  - split; [apply sameButProgress_refl|split; reflexivity].
Qed.

Lemma render_interval sys :
  intervalActive (render sys) = isLoading (wizard sys).
Proof.
  unfold render.
  destruct (isLoading (wizard sys)) eqn:Hl, (intervalActive sys) eqn:Hi;
    cbn [intervalActive]; congruence.
Qed.

Lemma required_missing (a b : bool) : a && b = false -> negb a || negb b = true.
Proof. destruct a, b; simpl; congruence. Qed.

Lemma required_present (a b : bool) : a && b = true -> negb a || negb b = false.
Proof. destruct a, b; simpl; congruence. Qed.

Lemma refused_transition g (env : Env) (clock : Clock) (sys : Sys) :
  requiredPresent g (data (wizard sys)) = false ->
  advance g env clock sys
  = {| wizard := wizard sys; intervalActive := intervalActive sys;
       alerts := (alerts sys ++ validationPrompt g)%list;
       calls := calls sys |}.
Proof.
  intros Hmiss. destruct g; cbn [requiredPresent] in Hmiss;
    apply required_missing in Hmiss;
    cbn [advance validationPrompt].
  - unfold handleGoToStep2. rewrite Hmiss. reflexivity.
  - unfold handleGoToStep3. rewrite Hmiss. rewrite app_nil_r.
    destruct sys; reflexivity.
  - unfold handleGenerate. rewrite Hmiss. reflexivity.
Qed.

(** C6: a gated transition whose required fields are not all there is
    refused: out of the description step without a description or an
    image, out of the question step without an answer or a price, out of
    the details step without a phone or a location, the step (indeed the
    whole wizard state) is left as it was and no gateway request is
    issued. *)
Theorem gated_transition_refused
    (g : Gate) (env : Env) (clock : Clock) (sys : Sys) :
  requiredPresent g (data (wizard sys)) = false ->
  step (wizard (advance g env clock sys)) = step (wizard sys)
  /\ wizard (advance g env clock sys) = wizard sys
  /\ calls (advance g env clock sys) = calls sys.
Proof.
  intros Hmiss. rewrite (refused_transition g env clock sys Hmiss).
  repeat split.
Qed.


End WizardClaims.

(** ** Runs on the samples *)

Section Runs.

Import Service App Samples.

Local Existing Instance Latin1.tables.

(** C1: with a key configured and the gateway unreachable, the rejection
    of the copy call is not caught: the whole campaign rejects, after the
    copy request alone, instead of being fulfilled with the placeholder
    copy and the original image in the three slots. *)
Theorem generateCampaign_copy_rejection_escapes :
  truthy (apiKey envDown) = true
  /\ generateCampaign bolo envDown []
     = (Rejected (Error "fetch failed"), [copyRequest bolo]).
Proof. split; reflexivity. Qed.

(** C2, counterexample: without an API key the operation rejects and the
    error reaches the caller, although the gateway would have answered. *)
Lemma generateFollowUpQuestion_rejects_without_key :
  generateFollowUpQuestion "Bolo de Pote de Morango" "/9j/4AAQSkZJRg==" envNoKey []
  = (Rejected (Error "API Key missing"), []).
Proof. reflexivity. Qed.

Lemma generateFollowUpQuestion_fulfilled_with_key_witness :
  exists question,
    fst (generateFollowUpQuestion "Bolo de Pote de Morango" "/9j/4AAQSkZJRg=="
           envDown [])
    = Fulfilled question
    /\ question <> EmptyString
    /\ question = questionFallbackError.
Proof.
  destruct (generateFollowUpQuestion_fulfilled_with_key
              "Bolo de Pote de Morango" "/9j/4AAQSkZJRg==" envDown []
              eq_refl)
    as (question & Hrun & Hne & _ & _ & Herr & _).
  exists question. split; [exact Hrun|]. split; [exact Hne|].
  apply (Herr (Error "fetch failed")). reflexivity.
Defined.

(** C3, counterexample: with the image present and a working gateway, an
    empty API key alone makes the whole operation reject. *)
Lemma generateCampaign_rejects_without_key :
  Service.productImage tenis = "/9j/4AAQSkZJRg=="
  /\ generateCampaign tenis envEmptyKey []
     = (Rejected (Error "API Key missing"), []).
Proof. split; reflexivity. Qed.

Lemma generateCampaign_failure_conditions_witness :
  generateCampaign tenis envEmptyKey []
  = (Rejected (Error "API Key missing"), [])
  /\ isFulfilled (fst (generateCampaign tenis envDegraded [])) = true.
Proof.
  split.
  - apply (proj1 (generateCampaign_failure_conditions tenis envEmptyKey [])).
    reflexivity.
  - apply (proj2 (generateCampaign_failure_conditions tenis envDegraded [])
             eq_refl (textResponse EmptyString)).
    vm_compute. reflexivity.
Defined.

Lemma getDesignTrends_short_circuit_witness :
  getDesignTrends "BÔLO de PÓTE de Morango" envUp []
  = (Fulfilled TEMPLATE_BOLO_POTE_V1, []).
Proof.
  refine (proj1 (getDesignTrends_short_circuit
                   "BÔLO de PÓTE de Morango" envUp [] _)).
  vm_compute. reflexivity.
Defined.

Lemma banner_fallbacks_are_independent_witness :
  exists r,
    fst (generateCampaign tenis envFourthDown []) = Fulfilled r
    /\ Service.bannerSquare r = "EDITED"
    /\ Service.bannerStory r = Service.productImage tenis
    /\ Service.bannerDesign r = "EDITED".
Proof.
  assert (Hcopy : copyOutcome tenis envFourthDown []
                  = Fulfilled (textResponse "Oferta!"))
    by (vm_compute; reflexivity).
  destruct (proj2 (banner_fallbacks_are_independent
                     tenis envFourthDown [] eq_refl Hcopy))
    as (r & Hrun & Hsquare & Hstory & Hdesign).
  exists r. split; [exact Hrun|].
  rewrite Hsquare, Hstory, Hdesign. vm_compute. repeat split.
Defined.

Lemma generateCampaign_ignores_dynamicQuestion_witness :
  generateCampaign tenis envUp [] = generateCampaign tenisOtherQuestion envUp [].
Proof.
  apply generateCampaign_ignores_dynamicQuestion. repeat split.
Defined.

Lemma progress_simulation_witness :
  (progress (tick (with_progress 39 initialState)) == 41)%Q
  /\ (progress (tick (with_progress 69 initialState)) == 70)%Q
  /\ (progress (tick (with_progress (189 # 2) initialState)) == 95)%Q
  /\ tick (with_progress 95 initialState) = with_progress 95 initialState
  /\ (progress (loadingCycle 1000 initialState) <= 95)%Q.
Proof.
  destruct (progress_simulation initialState)
    as (_ & _ & _ & H40 & H70 & H95 & Hceil & Hcycle & _).
  split; [rewrite H40; reflexivity|].
  split; [rewrite H70; [reflexivity|discriminate|reflexivity]|].
  split; [rewrite H95; [reflexivity|discriminate|reflexivity]|].
  split; [apply Hceil; discriminate|].
  apply Hcycle.
Defined.

Lemma gated_transition_refused_witness :
  step (wizard (advance FromTechnicalDetails envUp clock
                  (session TECHNICAL_DETAILS described)))
  = TECHNICAL_DETAILS
  /\ calls (advance FromTechnicalDetails envUp clock
              (session TECHNICAL_DETAILS described)) = [].
Proof.
  destruct (gated_transition_refused FromTechnicalDetails envUp clock
              (session TECHNICAL_DETAILS described) eq_refl)
    as (Hstep & _ & Hcalls).
  split; [exact Hstep|exact Hcalls].
Defined.



End Runs.

(** * Further properties of the code *)

(** ** Substrings *)

Section Substrings.

Lemma prefix_app_l (x s b : string) :
  String.prefix x s = true -> String.prefix x (s ++ b) = true.
Proof.
  revert s. induction x as [|c x IH]; intros s Hp;
    [destruct (s ++ b); reflexivity|].
  destruct s as [|c' s]; [discriminate|]. cbn [String.prefix append] in *.
  destruct (ascii_dec c c'); [apply IH; assumption|discriminate].
Qed.

Lemma prefix_refl (x : string) : String.prefix x x = true.
Proof.
  induction x as [|c x IH]; [reflexivity|]. cbn [String.prefix].
  destruct (ascii_dec c c); [assumption|congruence].
Qed.

Lemma includes_refl (x : string) : includes x x = true.
Proof.
  destruct x; cbn [includes]; rewrite prefix_refl; reflexivity.
Qed.

Lemma includes_cons (x : string) (c : ascii) (s : string) :
  includes x s = true -> includes x (String c s) = true.
Proof.
  intros Hs. cbn [includes]. destruct (String.prefix x (String c s)); auto.
Qed.

Lemma includes_app_r (x a s : string) :
  includes x s = true -> includes x (a ++ s) = true.
Proof.
  intros Hs. induction a as [|c a IH]; [assumption|].
  cbn [append]. apply includes_cons. assumption.
Qed.

Lemma includes_app_l (x s b : string) :
  includes x s = true -> includes x (s ++ b) = true.
Proof.
  induction s as [|c s IH]; intros Hs.
  - cbn [includes] in Hs. destruct x; [|discriminate Hs].
    destruct b; reflexivity.
  - cbn [includes] in Hs. cbn [append includes].
    destruct (String.prefix x (String c s)) eqn:Hp.
    + change (String c (s ++ b)) with (String c s ++ b).
      rewrite (prefix_app_l _ _ b Hp). reflexivity.
    + destruct (String.prefix x (String c (s ++ b))); [reflexivity|].
      apply IH. assumption.
Qed.

End Substrings.

Ltac includes_search :=
  solve [ apply includes_refl
        | apply includes_app_l; includes_search
        | apply includes_app_r; includes_search ].

(** ** The orchestrator, further *)

Section ServiceExtras.

Import Service Ui.

Context `{UnicodeTables}.

(** X1: the trend lookup never rejects and never returns an empty text.  It
    issues no request when the normalized description contains either
    trigger phrase, and exactly one request, with the search tool enabled,
    otherwise; a rejected search gives one fixed art direction, a missing
    or blank text another, and neither of them is the template sentinel. *)
Theorem getDesignTrends_always_fulfilled
    (description : string) (env : Env) (log : list Request) :
  exists trend issued,
    getDesignTrends description env log
    = (Fulfilled trend, (log ++ issued)%list)
    /\ trend <> EmptyString
    /\ (isKnownTemplate description = true ->
        issued = [] /\ trend = TEMPLATE_BOLO_POTE_V1)
    /\ (isKnownTemplate description = false ->
        issued = [trendRequest description]
        /\ tools (trendRequest description) = [googleSearch]
        /\ (forall e,
              gateway env (List.length log) (trendRequest description)
              = Rejected e -> trend = trendFallbackError)
        /\ (forall response,
              gateway env (List.length log) (trendRequest description)
              = Fulfilled response ->
              truthy_opt (trim_opt (text response)) = false ->
              trend = trendFallbackEmpty))
    /\ trendFallbackError <> TEMPLATE_BOLO_POTE_V1
    /\ trendFallbackEmpty <> TEMPLATE_BOLO_POTE_V1
    /\ trendFallbackEmpty <> trendFallbackError.
Proof.
  rewrite getDesignTrends_run.
  destruct (isKnownTemplate description) eqn:Hknown.
  - exists TEMPLATE_BOLO_POTE_V1, []. rewrite app_nil_r.
    repeat split; try discriminate.
  - eexists _, _. split; [reflexivity|].
    split.
    { apply truthy_nonempty.
      destruct (gateway env (List.length log) (trendRequest description));
        cbn [trendOf]; [apply truthy_or_else_opt|]; reflexivity. }
    split; [discriminate|].
    split; [|repeat split; discriminate].
    intros _. repeat split.
    + intros e He. rewrite He. reflexivity.
    + intros response Hr Hblank. rewrite Hr. cbn [trendOf].
      destruct (trim_opt (text response)) as [t|]; [|reflexivity].
      cbn [truthy_opt] in Hblank. cbn [or_else_opt]. unfold or_else.
      rewrite Hblank. reflexivity.
Qed.

(** X2: the prompt of the design banner always carries the price and the
    contact it is given, in the template branch as in the generic one; it
    carries the art direction whenever that is not the template sentinel,
    and the prompt of the clean square banner carries the description. *)
Theorem design_prompt_embeds
    (description contactInfo price designTrend : string) :
  let prompt :=
    bannerPrompt description design_square
      (Some contactInfo) (Some price) (Some designTrend) in
  includes price prompt = true
  /\ includes contactInfo prompt = true
  /\ (designTrend <> TEMPLATE_BOLO_POTE_V1 ->
      includes designTrend prompt = true)
  /\ includes description
       (bannerPrompt description clean_square None None None) = true.
Proof.
  cbn zeta. cbn [bannerPrompt].
  destruct (String.eqb_spec designTrend TEMPLATE_BOLO_POTE_V1) as [Heq|Hne].
  - repeat split.
    + unfold templatePrompt, lines. cbn [String.concat interp]. includes_search.
    + unfold templatePrompt, lines. cbn [String.concat interp]. includes_search.
    + intros Hne. contradiction.
    + unfold cleanSquarePrompt, lines. cbn [String.concat]. includes_search.
  - repeat split.
    + unfold genericPrompt, lines. cbn [String.concat interp]. includes_search.
    + unfold genericPrompt, lines. cbn [String.concat interp]. includes_search.
    + intros _. unfold genericPrompt, lines. cbn [String.concat interp].
      includes_search.
    + unfold cleanSquarePrompt, lines. cbn [String.concat]. includes_search.
Qed.

(** X3: the requests of a campaign.  It issues at most five; a campaign
    that rejects has issued at most two, all to the text model, so that no
    image edit is ever requested before the copy call has returned; a
    campaign that is fulfilled has issued one or two text requests and then
    the three image edits, square, story and design, in this order. *)
Theorem generateCampaign_requests
    (d : CampaignData) (env : Env) (log : list Request) :
  exists issued,
    snd (generateCampaign d env log) = (log ++ issued)%list
    /\ List.length issued <= 5
    /\ Forall (fun req => model req = textModel \/ model req = imageModel) issued
    /\ (isFulfilled (fst (generateCampaign d env log)) = false ->
        List.length issued <= 2
        /\ Forall (fun req => model req = textModel) issued)
    /\ (isFulfilled (fst (generateCampaign d env log)) = true ->
        exists texts designTrend,
          issued
          = (texts ++ [squareRequest d; storyRequest d;
                       designRequest d designTrend])%list
          /\ 1 <= List.length texts <= 2
          /\ Forall (fun req => model req = textModel) texts).
Proof.
  destruct (truthy (apiKey env)) eqn:Hkey.
  - destruct (copyOutcome d env log) as [copyResponse|e] eqn:Hcopy.
    + rewrite (generateCampaign_run d env log Hkey Hcopy). cbn [fst snd].
      unfold trendStage.
      destruct (isKnownTemplate (description d)); cbn [fst snd];
        rewrite <- ?app_assoc; eexists; (split; [reflexivity|]);
        cbn [List.length app];
        (split; [lia|]);
        (split; [repeat constructor; (left; reflexivity) || (right; reflexivity)|]);
        (split; [discriminate|]); intros _.
      * exists [copyRequest d], TEMPLATE_BOLO_POTE_V1.
        split; [reflexivity|]. split; [cbn; lia|]. repeat constructor.
      * eexists [trendRequest (description d); copyRequest d], _.
        split; [reflexivity|]. split; [cbn; lia|]. repeat constructor.
    + rewrite (generateCampaign_copy_rejected d env log Hkey Hcopy).
      cbn [fst snd]. unfold trendStage.
      destruct (isKnownTemplate (description d)); cbn [fst snd];
        rewrite <- ?app_assoc; eexists; (split; [reflexivity|]);
        cbn [List.length app];
        (split; [lia|]);
        (split; [repeat constructor; left; reflexivity|]);
        (split; [|discriminate]); intros _;
        (split; [lia|repeat constructor]).
  - rewrite (generateCampaign_no_key d env log Hkey). cbn [fst snd].
    exists []. split; [symmetry; apply app_nil_r|].
    split; [cbn; lia|]. split; [constructor|].
    split; [|discriminate]. intros _. split; [cbn; lia|constructor].
Qed.

End ServiceExtras.

(** ** The data URL prefix *)

Section DataUrl.

Import App Ui.

Lemma substring_all (s : string) : substring 0 (String.length s) s = s.
Proof.
  induction s as [|c s IH]; [reflexivity|].
  cbn [String.length substring]. rewrite IH. reflexivity.
Qed.

Lemma dropPrefix_app (p x : string) : dropPrefix p (p ++ x) = x.
Proof.
  unfold dropPrefix. induction p as [|c p IH].
  - cbn [append String.length]. rewrite Nat.sub_0_r. apply substring_all.
  - cbn [append String.length substring Nat.sub]. exact IH.
Qed.

Lemma prefix_split (p s : string) :
  String.prefix p s = true -> s = p ++ dropPrefix p s.
Proof.
  revert s. induction p as [|c p IH]; intros s Hp.
  - unfold dropPrefix. cbn [append String.length]. rewrite Nat.sub_0_r.
    symmetry. apply substring_all.
  - destruct s as [|c' s]; [discriminate|]. cbn [String.prefix] in Hp.
    destruct (ascii_dec c c') as [->|]; [|discriminate].
    cbn [append]. f_equal. rewrite (IH s Hp) at 1.
    unfold dropPrefix. cbn [String.length substring Nat.sub]. reflexivity.
Qed.

Lemma prefix_app (p x : string) : String.prefix p (p ++ x) = true.
Proof.
  induction p as [|c p IH]; cbn [append String.prefix].
  - destruct x; reflexivity.
  - destruct (ascii_dec c c); [assumption|congruence].
Qed.

Lemma length_append (a b : string) :
  String.length (a ++ b) = String.length a + String.length b.
Proof.
  induction a as [|c a IH]; cbn [append String.length]; [reflexivity|].
  rewrite IH. reflexivity.
Qed.

(** [dropLowerLetters] removes the longest run of small letters. *)
Lemma dropLowerLetters_split (s : string) :
  exists ty,
    s = ty ++ dropLowerLetters s /\ allLowerLetters ty = true.
Proof.
  induction s as [|c s (ty & Hs & Hty)].
  - exists EmptyString. split; reflexivity.
  - cbn [dropLowerLetters]. destruct (isLowerLetter c) eqn:Hc.
    + exists (String c ty). split.
      * cbn [append]. f_equal. exact Hs.
      * cbn [allLowerLetters]. rewrite Hc, Hty. reflexivity.
    + exists EmptyString. split; reflexivity.
Qed.

Lemma dropLowerLetters_app (ty rest : string) :
  allLowerLetters ty = true ->
  dropLowerLetters rest = rest ->
  dropLowerLetters (ty ++ rest) = rest.
Proof.
  intros Hty Hrest. induction ty as [|c ty IH]; [exact Hrest|].
  cbn [allLowerLetters] in Hty. apply andb_prop in Hty as [Hc Hty].
  cbn [append dropLowerLetters]. rewrite Hc. apply IH. exact Hty.
Qed.

Lemma stripBase64Prefix_match (ty b : string) :
  ty <> EmptyString -> allLowerLetters ty = true ->
  stripBase64Prefix ("data:image/" ++ ty ++ ";base64," ++ b) = b.
Proof.
  intros Hne Hty. unfold stripBase64Prefix.
  rewrite prefix_app, dropPrefix_app.
  rewrite (@dropLowerLetters_app ty (";base64," ++ b) Hty) by reflexivity.
  rewrite prefix_app, dropPrefix_app.
  assert (Hlen : Nat.ltb (String.length (";base64," ++ b))
                   (String.length (ty ++ ";base64," ++ b)) = true).
  { apply Nat.ltb_lt. rewrite (length_append ty).
    destruct ty; [congruence|]. cbn [String.length]. lia. }
  rewrite Hlen. reflexivity.
Qed.

(** X4: [stripBase64Prefix] removes the header of a data URL whose image
    type is a non-empty run of small letters, and returns the payload. *)
Theorem stripBase64Prefix_removes_header (ty b : string) :
  ty <> EmptyString -> allLowerLetters ty = true ->
  stripBase64Prefix ("data:image/" ++ ty ++ ";base64," ++ b) = b.
Proof. exact (stripBase64Prefix_match (ty := ty) b). Qed.

(** X5: [stripBase64Prefix] changes nothing else: its result is its
    argument, unless the argument is such a header, with a non-empty type
    in small letters, followed by the result.  So a type with any other
    character (a plus sign, a digit, a dash, a capital) keeps its header. *)
Theorem stripBase64Prefix_only_header (base64 : string) :
  stripBase64Prefix base64 = base64
  \/ exists ty,
       ty <> EmptyString /\ allLowerLetters ty = true
       /\ base64 = "data:image/" ++ ty ++ ";base64," ++ stripBase64Prefix base64.
Proof.
  unfold stripBase64Prefix.
  destruct (String.prefix "data:image/" base64) eqn:Hhead; [|left; reflexivity].
  destruct (dropLowerLetters_split (dropPrefix "data:image/" base64))
    as (ty & Hsplit & Hty).
  destruct (Nat.ltb _ _ && String.prefix ";base64," _) eqn:Hcond;
    [|left; reflexivity].
  apply andb_prop in Hcond as [Hlen Htail]. right. exists ty.
  apply Nat.ltb_lt in Hlen. split; [|split; [exact Hty|]].
  - intros ->. cbn [append] in Hsplit. rewrite <- Hsplit in Hlen. lia.
  - rewrite (@prefix_split _ _ Hhead) at 1. f_equal.
    rewrite Hsplit at 1. f_equal. apply prefix_split. exact Htail.
Qed.

(** X6: the header the wizard puts on a stored banner is one that
    [stripBase64Prefix] removes: stripping is a left inverse of [dataUrl],
    and a photo that already is a JPEG data URL is rebuilt as it was. *)
Theorem stripBase64Prefix_dataUrl (base64 : string) :
  stripBase64Prefix (dataUrl base64) = base64
  /\ dataUrl (stripBase64Prefix (dataUrl base64)) = dataUrl base64.
Proof.
  assert (Hstrip : stripBase64Prefix (dataUrl base64) = base64).
  { change (dataUrl base64)
      with ("data:image/" ++ "jpeg" ++ ";base64," ++ base64).
    apply stripBase64Prefix_match; [discriminate|reflexivity]. }
  split; [exact Hstrip|]. rewrite Hstrip. reflexivity.
Qed.

End DataUrl.

(** ** The progress bar, further *)

Section ProgressExtras.

Import App Ui.

Local Open Scope Q_scope.

Lemma tick_strict prev :
  progress prev < 95 -> progress prev < progress (tick prev).
Proof.
  intros Hlt.
  destruct (tick_cases prev) as [[_ ->]|[[_ ->]|[[_ ->]|[Hge _]]]];
    cbn [progress with_progress]; lra.
Qed.

Lemma tick_range prev :
  0 <= progress prev <= 100 -> 0 <= progress (tick prev) <= 100.
Proof.
  intros [Hlo Hhi].
  destruct (tick_cases prev) as [[Hb ->]|[[Hb ->]|[[Hb ->]|[Hb ->]]]];
    cbn [progress with_progress]; lra.
Qed.

Lemma ticks_range n s :
  0 <= progress s <= 100 -> 0 <= progress (Nat.iter n tick s) <= 100.
Proof.
  intros Hs. induction n as [|n IH]; cbn [Nat.iter nat_rect];
    [assumption|apply tick_range; exact IH].
Qed.

Lemma ticks_at_ceiling n s : 95 <= progress s -> Nat.iter n tick s = s.
Proof.
  intros Hs. induction n as [|n IH]; cbn [Nat.iter nat_rect]; [reflexivity|].
  change (nat_rect (fun _ => WizardState) s (fun _ => tick) n)
    with (Nat.iter n tick s).
  rewrite IH. apply tick_at_ceiling. exact Hs.
Qed.

Lemma loadingCycle_succ n s :
  loadingCycle (S n) s = tick (loadingCycle n s).
Proof. reflexivity. Qed.

Lemma loadingCycle_monotone n m s :
  (n <= m)%nat -> progress (loadingCycle n s) <= progress (loadingCycle m s).
Proof.
  induction 1 as [|m Hle IH]; [lra|].
  rewrite loadingCycle_succ.
  eapply Qle_trans; [exact IH|apply tick_nondecreasing].
Qed.

Lemma loadingCycle_96 s : progress (loadingCycle 96 s) == 189 # 2.
Proof. vm_compute. reflexivity. Qed.

Lemma loadingCycle_97 s : progress (loadingCycle 97 s) == 95.
Proof. vm_compute. reflexivity. Qed.

Lemma loadingCycle_saturated n s :
  (97 <= n)%nat -> loadingCycle n s = loadingCycle 97 s.
Proof.
  induction 1 as [|n Hle IH]; [reflexivity|].
  rewrite loadingCycle_succ, IH. apply tick_at_ceiling.
  rewrite loadingCycle_97. lra.
Qed.

(** X7: the simulated progress climbs strictly at every firing of the
    interval while it is below 95, reaches 95 at the 97th firing after the
    seed, not before, and stays there at every later firing. *)
Theorem progress_saturates (s : WizardState) (n : nat) :
  ((n < 97)%nat -> progress (loadingCycle n s) < 95)
  /\ ((97 <= n)%nat -> progress (loadingCycle n s) == 95)
  /\ (progress (loadingCycle n s) < 95 ->
      progress (loadingCycle n s) < progress (loadingCycle (S n) s)).
Proof.
  split; [|split].
  - intros Hlt.
    assert (Hle : (n <= 96)%nat) by lia.
    pose proof (loadingCycle_monotone s Hle) as Hmono.
    rewrite loadingCycle_96 in Hmono. lra.
  - intros Hge. rewrite (loadingCycle_saturated s Hge). apply loadingCycle_97.
  - intros Hlt. rewrite loadingCycle_succ. apply tick_strict. exact Hlt.
Qed.

Lemma Qltb_tick_false (T : Q) prev :
  Qltb (progress prev) T = false -> Qltb (progress (tick prev)) T = false.
Proof.
  intros Hb. apply Qltb_false in Hb. apply Qltb_of_le.
  eapply Qle_trans; [exact Hb|apply tick_nondecreasing].
Qed.

(** X8: on the details step (and on the processing step) the text above
    the progress bar is chosen by the progress alone: the loading message
    of the state is not shown there, so the message [handleGenerate] sets is
    never the text displayed; the last of the four texts, once shown, stays
    at every firing of the interval.  On every other step the text is the
    loading message. *)
Theorem loadingText_by_step (state : WizardState) :
  (step state = TECHNICAL_DETAILS \/ step state = PROCESSING ->
   (forall msg, loadingText (with_loadingMessage msg state) = loadingText state)
   /\ loadingText state <> "Criando arte viral e copy persuasiva..."
   /\ (loadingText state = "Finalizando renderização 8k..." ->
       loadingText (tick state) = "Finalizando renderização 8k..."))
  /\ (step state <> TECHNICAL_DETAILS -> step state <> PROCESSING ->
      loadingText state = loadingMessage state).
Proof.
  split.
  - intros Hstep.
    assert (Htext : forall s, step s = step state ->
              loadingText s
              = if Qltb (progress s) 20
                then "Pesquisando tendências no Designi..."%string
                else if Qltb (progress s) 50
                     then "Escrevendo copy persuasiva..."%string
                     else if Qltb (progress s) 80
                          then "Ajustando iluminação de estúdio (IA)..."%string
                          else "Finalizando renderização 8k..."%string).
    { intros s Hs. unfold loadingText. rewrite Hs.
      destruct Hstep as [-> | ->]; reflexivity. }
    split; [|split].
    + intros msg. rewrite !Htext by reflexivity. reflexivity.
    + rewrite Htext by reflexivity.
      destruct (Qltb (progress state) 20); [discriminate|].
      destruct (Qltb (progress state) 50); [discriminate|].
      destruct (Qltb (progress state) 80); discriminate.
    + destruct (tick_sameButProgress state) as (Hs & _).
      rewrite (Htext state eq_refl), (Htext (tick state) Hs).
      destruct (Qltb (progress state) 20) eqn:H20; [discriminate|].
      destruct (Qltb (progress state) 50) eqn:H50; [discriminate|].
      destruct (Qltb (progress state) 80) eqn:H80; [discriminate|].
      intros _.
      rewrite (Qltb_tick_false _ _ H20), (Qltb_tick_false _ _ H50),
        (Qltb_tick_false _ _ H80). reflexivity.
  - intros H1 H2. unfold loadingText.
    destruct (step state); try reflexivity; congruence.
Qed.

End ProgressExtras.

(** ** The handlers, further *)

Section HandlerExtras.

Import App Ui.

Context `{UnicodeTables}.

Local Open Scope Q_scope.

Lemma render_not_loading sys :
  isLoading (wizard sys) = false -> wizard (render sys) = wizard sys.
Proof.
  intros Hl. unfold render. rewrite Hl.
  destruct (intervalActive sys); reflexivity.
Qed.

Lemma render_range sys : inRange (wizard sys) -> inRange (wizard (render sys)).
Proof.
  unfold inRange, render. intros Hr.
  destruct (isLoading (wizard sys)), (intervalActive sys);
    cbn [wizard seedProgress with_progress progress]; lra.
Qed.

Lemma elapse_range n sys : inRange (wizard sys) -> inRange (wizard (elapse n sys)).
Proof.
  unfold inRange, elapse. intros Hr.
  destruct (intervalActive sys); cbn [wizard]; [apply ticks_range|]; exact Hr.
Qed.

Lemma elapse_interval n sys : intervalActive (elapse n sys) = intervalActive sys.
Proof.
  unfold elapse. destruct (intervalActive sys) eqn:Hi; [reflexivity|exact Hi].
Qed.

(** An [await] issues the requests of the call and lets time pass. *)
Lemma await_spec {A} (p : Async A) (env : Env) (clock : Clock) (sys : Sys) :
  exists pending,
    await p env clock sys = (fst (p env (calls sys)), pending)
    /\ sameButProgress (wizard pending) (wizard sys)
    /\ alerts pending = alerts sys
    /\ calls pending = snd (p env (calls sys))
    /\ (inRange (wizard sys) -> inRange (wizard pending)).
Proof.
  unfold await. destruct (p env (calls sys)) as [settled log].
  match goal with
  | |- context [elapse ?n (render ?s)] =>
      destruct (elapse_frame n (render s)) as (Fe & Ae & Ce);
      destruct (render_frame s) as (Fr & Ar & Cr);
      pose proof (fun Hr => elapse_range n (render s) (render_range s Hr)) as Hrange;
      exists (elapse n (render s))
  end.
  cbn [wizard alerts calls fst snd] in *.
  split; [reflexivity|].
  split; [eapply sameButProgress_trans; [exact Fe|exact Fr]|].
  split; [congruence|]. split; [congruence|exact Hrange].
Qed.

(** What [handleGoToStep2] leaves when it is not refused. *)
Lemma handleGoToStep2_outcome
    (env : Env) (clock : Clock) (sys : Sys) (image : string) :
  continue1Disabled (wizard sys) = false ->
  productImage (data (wizard sys)) = Some image ->
  exists p,
    handleGoToStep2 env clock sys
    = {| wizard :=
           {| step := DYNAMIC_QUESTION;
              isLoading := false;
              loadingMessage := "Analisando seu produto com IA...";
              progress := p;
              data := with_dynamicQuestion
                        (Some (storedQuestion env sys image))
                        (data (wizard sys));
              results := results (wizard sys) |};
         intervalActive := false;
         alerts := alerts sys;
         calls := snd (questionRun env sys image) |}
    /\ (inRange (wizard sys) -> 0 <= p <= 100).
Proof.
  intros Hguard Himg. unfold handleGoToStep2.
  unfold continue1Disabled in Hguard. rewrite Hguard, Himg.
  match goal with
  | |- context [await ?p env clock ?s] =>
      destruct (await_spec p env clock s)
        as (pending & -> & (P1 & P2 & P3 & P4 & P5) & Pa & Pc & Pr)
  end.
  unfold storedQuestion, questionRun.
  cbn [wizard calls alerts setState step isLoading loadingMessage data results
       with_loadingMessage with_isLoading progress] in *.
  exists (progress (wizard pending)).
  split; [|exact Pr].
  destruct (fst (Service.generateFollowUpQuestion
                   (description (data (wizard sys)))
                   (stripBase64Prefix image) env (calls sys)));
    unfold updateData, setState, render, with_step, with_isLoading, with_data;
    cbn [wizard intervalActive alerts calls isLoading
         step loadingMessage progress data results];
    rewrite P3, P4, P5, Pa, Pc;
    destruct (intervalActive pending); reflexivity.
Qed.

Lemma await_interval {A} (p : Async A) (env : Env) (clock : Clock) (sys : Sys) :
  intervalActive (snd (await p env clock sys)) = isLoading (wizard sys).
Proof.
  unfold await. destruct (p env (calls sys)) as [settled log]. cbn [snd].
  rewrite elapse_interval, render_interval. reflexivity.
Qed.

(** What [handleGenerate] leaves when it is not refused and has an image:
    the results on the last step, or the error alert on the step it was. *)
Lemma handleGenerate_outcome
    (env : Env) (clock : Clock) (sys : Sys) (image : string) :
  generateDisabled (wizard sys) = false ->
  productImage (data (wizard sys)) = Some image ->
  match fst (campaignRun env sys image) with
  | Fulfilled res =>
      handleGenerate env clock sys
      = {| wizard :=
             {| step := RESULTS;
                isLoading := false;
                loadingMessage := "Criando arte viral e copy persuasiva...";
                progress := 100;
                data := data (wizard sys);
                results := Some (storedResults res) |};
           intervalActive := false;
           alerts := alerts sys;
           calls := snd (campaignRun env sys image) |}
  | Rejected _ =>
      exists p,
        handleGenerate env clock sys
        = {| wizard :=
               {| step := step (wizard sys);
                  isLoading := false;
                  loadingMessage := "Criando arte viral e copy persuasiva...";
                  progress := p;
                  data := data (wizard sys);
                  results := results (wizard sys) |};
             intervalActive := false;
             alerts := (alerts sys ++ [generationError])%list;
             calls := snd (campaignRun env sys image) |}
        /\ (inRange (wizard sys) -> 0 <= p <= 100)
  end.
Proof.
  intros Hguard Himg. unfold handleGenerate.
  unfold generateDisabled in Hguard. rewrite Hguard, Himg.
  match goal with
  | |- context [await ?p env clock ?s] =>
      pose proof (await_interval p env clock s) as Hactive;
      destruct (await_spec p env clock s)
        as (pending & Hawait & (P1 & P2 & P3 & P4 & P5) & Pa & Pc & Pr);
      rewrite Hawait in Hactive |- *
  end.
  unfold campaignRun.
  cbn [wizard calls alerts setState step isLoading loadingMessage data results
       with_loadingMessage with_isLoading progress snd] in *.
  destruct (fst (Service.generateCampaign
                   (campaignData (data (wizard sys)) (stripBase64Prefix image))
                   env (calls sys))) as [res|e].
  - unfold setState, render, elapse, with_step, with_results, with_isLoading,
      with_progress.
    cbn [wizard intervalActive alerts calls isLoading
         step loadingMessage progress data results].
    rewrite P2, Hactive.
    cbn [wizard intervalActive alerts calls isLoading
         step loadingMessage progress data results].
    rewrite ticks_at_ceiling by (cbn [progress]; lra).
    cbn [wizard intervalActive alerts calls isLoading
         step loadingMessage progress data results].
    rewrite P3, P4, Pa, Pc. reflexivity.
  - exists (progress (wizard pending)). split; [|exact Pr].
    unfold setState, render, alert, with_isLoading, generationError.
    cbn [wizard intervalActive alerts calls isLoading
         step loadingMessage progress data results].
    rewrite Hactive, P1, P3, P4, P5, Pa, Pc. reflexivity.
Qed.

(** With no image, the argument of the call cannot be built: the handler
    goes to its [catch] at once. *)
Lemma handleGenerate_null_image (env : Env) (clock : Clock) (sys : Sys) :
  generateDisabled (wizard sys) = false ->
  productImage (data (wizard sys)) = None ->
  handleGenerate env clock sys
  = render
      {| wizard :=
           with_isLoading false
             (with_loadingMessage "Criando arte viral e copy persuasiva..."
                (with_isLoading true (wizard sys)));
         intervalActive := intervalActive sys;
         alerts := (alerts sys ++ [generationError])%list;
         calls := calls sys |}.
Proof.
  intros Hguard Himg. unfold handleGenerate.
  unfold generateDisabled in Hguard. rewrite Hguard, Himg. reflexivity.
Qed.


End HandlerExtras.

(** ** The wizard, further *)

Section WizardExtras.

Import App Ui.

Context `{UnicodeTables} `{Intl}.

Local Open Scope Q_scope.

Lemma truthy_opt_some (o : option string) :
  truthy_opt o = true -> exists s, o = Some s /\ truthy s = true.
Proof.
  destruct o as [s|]; [|discriminate]. intros Hs. exists s. split; [reflexivity|exact Hs].
Qed.

Lemma storedQuestion_nonempty (env : Env) (sys : Sys) (image : string) :
  truthy (storedQuestion env sys image) = true.
Proof.
  unfold storedQuestion, questionRun.
  destruct (truthy (Service.apiKey env)) eqn:Hkey.
  - rewrite (generateFollowUpQuestion_run _ _ env (calls sys) Hkey). cbn [fst].
    match goal with
    | |- context [gateway env ?n ?req] => destruct (gateway env n req)
    end; [apply truthy_or_else_opt|]; reflexivity.
  - rewrite (generateFollowUpQuestion_no_key _ _ env (calls sys) Hkey).
    reflexivity.
Qed.

(** X9: [handleGoToStep2] never blocks on the gateway.  With a description
    and an image it always ends on the question step, the loading cleared
    and the interval stopped, with a non-empty question stored and nothing
    else of the data, the results or the alerts changed.  Without an API
    key the question is the fallback of the handler itself and no request
    is issued; with a key exactly one request is. *)
Theorem handleGoToStep2_always_advances
    (env : Env) (clock : Clock) (sys : Sys) :
  requiredPresent FromDescription (data (wizard sys)) = true ->
  let sys' := handleGoToStep2 env clock sys in
  step (wizard sys') = DYNAMIC_QUESTION
  /\ isLoading (wizard sys') = false
  /\ intervalActive sys' = false
  /\ alerts sys' = alerts sys
  /\ results (wizard sys') = results (wizard sys)
  /\ (exists question,
        question <> EmptyString
        /\ data (wizard sys')
           = with_dynamicQuestion (Some question) (data (wizard sys))
        /\ (truthy (Service.apiKey env) = false ->
            question = callerFallbackQuestion))
  /\ (truthy (Service.apiKey env) = false -> calls sys' = calls sys)
  /\ (truthy (Service.apiKey env) = true ->
      List.length (calls sys') = S (List.length (calls sys))).
Proof.
  intros Hreq sys'. subst sys'. cbn [requiredPresent] in Hreq.
  pose proof (required_present _ _ Hreq) as Hguard.
  apply andb_prop in Hreq as [_ Himage].
  apply truthy_opt_some in Himage as (image & Himage & _).
  destruct (handleGoToStep2_outcome env clock sys Hguard Himage)
    as (p & -> & _).
  cbn [wizard step isLoading intervalActive alerts results data calls].
  repeat split.
  - exists (storedQuestion env sys image).
    split; [apply truthy_nonempty, storedQuestion_nonempty|].
    split; [reflexivity|].
    intros Hkey. unfold storedQuestion, questionRun.
    rewrite (generateFollowUpQuestion_no_key _ _ env (calls sys) Hkey).
    reflexivity.
  - intros Hkey. unfold questionRun.
    rewrite (generateFollowUpQuestion_no_key _ _ env (calls sys) Hkey).
    reflexivity.
  - intros Hkey. unfold questionRun.
    rewrite (generateFollowUpQuestion_run _ _ env (calls sys) Hkey).
    cbn [snd]. rewrite length_app. cbn [List.length]. lia.
Qed.

(** X10: when the campaign is fulfilled, [handleGenerate] ends on the
    results step with the copy as returned and each banner behind a JPEG
    data URL header, the progress at 100, the loading cleared, the interval
    stopped, no alert shown and the collected data as they were. *)
Theorem handleGenerate_success
    (env : Env) (clock : Clock) (sys : Sys) (image : string)
    (res : Service.AdGenerationResult) :
  requiredPresent FromTechnicalDetails (data (wizard sys)) = true ->
  productImage (data (wizard sys)) = Some image ->
  fst (campaignRun env sys image) = Fulfilled res ->
  handleGenerate env clock sys
  = {| wizard :=
         {| step := RESULTS;
            isLoading := false;
            loadingMessage := "Criando arte viral e copy persuasiva...";
            progress := 100;
            data := data (wizard sys);
            results :=
              Some {| copy := Some (Service.copy res);
                      bannerSquare :=
                        Some ("data:image/jpeg;base64,"
                              ++ Service.bannerSquare res);
                      bannerStory :=
                        Some ("data:image/jpeg;base64,"
                              ++ Service.bannerStory res);
                      bannerDesign :=
                        Some ("data:image/jpeg;base64,"
                              ++ Service.bannerDesign res) |} |};
       intervalActive := false;
       alerts := alerts sys;
       calls := snd (campaignRun env sys image) |}.
Proof.
  intros Hreq Himage Hrun. cbn [requiredPresent] in Hreq.
  pose proof (required_present _ _ Hreq) as Hguard.
  pose proof (handleGenerate_outcome env clock sys Hguard Himage) as Hout.
  rewrite Hrun in Hout. exact Hout.
Qed.

(** X11: called on a state with no image (and a phone and a location),
    [handleGenerate] fails before the service is called: it shows the
    generation error, issues no gateway request and leaves an idle wizard
    as it was, but for the loading message. *)
Theorem handleGenerate_without_image
    (env : Env) (clock : Clock) (sys : Sys) :
  requiredPresent FromTechnicalDetails (data (wizard sys)) = true ->
  productImage (data (wizard sys)) = None ->
  isLoading (wizard sys) = false ->
  intervalActive sys = false ->
  handleGenerate env clock sys
  = {| wizard :=
         with_loadingMessage "Criando arte viral e copy persuasiva..."
           (wizard sys);
       intervalActive := false;
       alerts := (alerts sys ++ [generationError])%list;
       calls := calls sys |}.
Proof.
  intros Hreq Himage Hloading Hidle. cbn [requiredPresent] in Hreq.
  pose proof (required_present _ _ Hreq) as Hguard.
  rewrite (handleGenerate_null_image env clock sys Hguard Himage).
  unfold render. cbn [wizard intervalActive isLoading with_isLoading].
  rewrite Hidle. f_equal.
  unfold with_isLoading, with_loadingMessage.
  cbn [step isLoading loadingMessage progress data results].
  rewrite <- Hloading. reflexivity.
Qed.

End WizardExtras.

(** ** Sessions *)

Section Sessions.

Import App Ui.

Context `{UnicodeTables} `{Intl}.

Local Open Scope Q_scope.

Lemma bannerOf_not_fulfilled (image : string) (outcome : Settled Response) :
  isFulfilled outcome = false -> Service.bannerOf image outcome = image.
Proof. destruct outcome; [discriminate|reflexivity]. Qed.

(** X12: degraded results show the photo.  When the photo is a JPEG data
    URL, the copy call returns and every image edit is rejected,
    [handleGenerate] ends on the results step and each of the three banners
    it stores is the photo itself, as it was uploaded. *)
Theorem degraded_banners_are_the_photo
    (env : Env) (clock : Clock) (sys : Sys) (base64 : string)
    (copyResponse : Response) :
  requiredPresent FromTechnicalDetails (data (wizard sys)) = true ->
  productImage (data (wizard sys)) = Some (dataUrl base64) ->
  truthy (Service.apiKey env) = true ->
  Service.copyOutcome (campaignData (data (wizard sys)) base64) env (calls sys)
  = Fulfilled copyResponse ->
  (forall n req, model req = imageModel ->
                 isFulfilled (gateway env n req) = false) ->
  let sys' := handleGenerate env clock sys in
  step (wizard sys') = RESULTS
  /\ results (wizard sys')
     = Some {| copy :=
                 Some (Service.or_else_opt (text copyResponse)
                         Service.copyPlaceholder);
               bannerSquare := productImage (data (wizard sys));
               bannerStory := productImage (data (wizard sys));
               bannerDesign := productImage (data (wizard sys)) |}.
Proof.
  intros Hreq Himage Hkey Hcopy Hdown sys'. subst sys'.
  cbn [requiredPresent] in Hreq.
  pose proof (required_present _ _ Hreq) as Hguard.
  pose proof (handleGenerate_outcome env clock sys Hguard Himage) as Hout.
  unfold campaignRun in Hout.
  assert (Hstrip : stripBase64Prefix (dataUrl base64) = base64).
  { change (dataUrl base64)
      with ("data:image/" ++ "jpeg" ++ ";base64," ++ base64)%string.
    apply stripBase64Prefix_match; [discriminate|reflexivity]. }
  rewrite Hstrip in Hout.
  rewrite (generateCampaign_run _ env (calls sys) Hkey Hcopy) in Hout.
  cbn [fst snd] in Hout. rewrite Hout.
  cbn [wizard step results]. split; [reflexivity|].
  unfold storedResults.
  cbn [Service.copy Service.bannerSquare Service.bannerStory
       Service.bannerDesign].
  rewrite !bannerOf_not_fulfilled by (apply Hdown; reflexivity).
  rewrite Himage. reflexivity.
Qed.

Lemma digitsOnly_allDigits (s : string) : allDigits (digitsOnly s) = true.
Proof.
  induction s as [|c s IH]; [reflexivity|]. cbn [digitsOnly].
  destruct (isDigit c) eqn:Hc; [|exact IH].
  cbn [allDigits]. rewrite Hc, IH. reflexivity.
Qed.

Lemma digitsOnly_fixed (s : string) : allDigits s = true -> digitsOnly s = s.
Proof.
  induction s as [|c s IH]; [reflexivity|]. cbn [allDigits digitsOnly].
  intros Hs. apply andb_prop in Hs as [Hc Hs]. rewrite Hc, (IH Hs). reflexivity.
Qed.

(** X13: [handlePriceChange] reads the digits of the field and nothing
    else: what it does with a text is what it does with the digits of that
    text; it changes no field but the price; and a text with no digit
    clears the price, which disables the button of the question step. *)
Theorem handlePriceChange_reads_digits (value : string) (sys : Sys) :
  allDigits (digitsOnly value) = true
  /\ handlePriceChange value sys = handlePriceChange (digitsOnly value) sys
  /\ (exists formatted,
        handlePriceChange value sys
        = {| wizard :=
               with_data (with_price formatted (data (wizard sys))) (wizard sys);
             intervalActive := intervalActive sys;
             alerts := alerts sys;
             calls := calls sys |}
        /\ (digitsOnly value = EmptyString -> formatted = EmptyString))
  /\ (digitsOnly value = EmptyString ->
      continue2Disabled (wizard (handlePriceChange value sys)) = true).
Proof.
  split; [apply digitsOnly_allDigits|].
  split.
  { unfold handlePriceChange.
    rewrite (@digitsOnly_fixed _ (digitsOnly_allDigits value)). reflexivity. }
  split.
  - unfold handlePriceChange.
    destruct (truthy (digitsOnly value)) eqn:Hraw; cbn [negb].
    + exists (formatBRL (digitsOnly value)). split; [reflexivity|].
      intros Hempty. rewrite Hempty in Hraw. discriminate.
    + exists EmptyString. split; reflexivity.
  - intros Hempty. unfold handlePriceChange. rewrite Hempty. cbn [truthy negb].
    unfold continue2Disabled, updateData, setState.
    cbn [wizard data with_data with_price price truthy negb].
    apply orb_true_r.
Qed.

End Sessions.

(** ** What a session keeps *)

Section SessionInvariant.

Import App Ui.

Context `{UnicodeTables} `{Intl}.

Local Open Scope Q_scope.















End SessionInvariant.

(** ** More runs on the samples *)

Section MoreRuns.

Import App Ui Samples MoreSamples.

Local Existing Instance Latin1.tables.

Lemma stripBase64Prefix_removes_header_witness :
  stripBase64Prefix "data:image/png;base64,iVBORw0KGgo=" = "iVBORw0KGgo=".
Proof.
  apply (stripBase64Prefix_removes_header (ty := "png") "iVBORw0KGgo=");
    [discriminate|reflexivity].
Defined.

Lemma handleGoToStep2_always_advances_witness :
  step (wizard (handleGoToStep2 envNoKey clock (session DESCRIPTION described)))
  = DYNAMIC_QUESTION
  /\ calls (handleGoToStep2 envNoKey clock (session DESCRIPTION described)) = [].
Proof.
  destruct (handleGoToStep2_always_advances envNoKey clock
              (session DESCRIPTION described) eq_refl)
    as (Hstep & _ & _ & _ & _ & _ & Hcalls & _).
  split; [exact Hstep|]. apply Hcalls. reflexivity.
Defined.

Lemma handleGenerate_success_witness :
  step (wizard (handleGenerate envUp clock (session TECHNICAL_DETAILS filled)))
  = RESULTS
  /\ alerts (handleGenerate envUp clock (session TECHNICAL_DETAILS filled)) = [].
Proof.
  rewrite (handleGenerate_success envUp clock
             (session TECHNICAL_DETAILS filled)
             (image := "data:image/jpeg;base64,/9j/4AAQSkZJRg==")
             (res := {| Service.copy := "Oferta!";
                        Service.bannerSquare := "EDITED";
                        Service.bannerStory := "EDITED";
                        Service.bannerDesign := "EDITED" |})
             eq_refl eq_refl);
    [split; reflexivity|vm_compute; reflexivity].
Defined.

Lemma handleGenerate_without_image_witness :
  alerts (handleGenerate envUp clock (session TECHNICAL_DETAILS withoutImage))
  = [generationError]
  /\ calls (handleGenerate envUp clock (session TECHNICAL_DETAILS withoutImage))
     = [].
Proof.
  rewrite (handleGenerate_without_image envUp clock
             (session TECHNICAL_DETAILS withoutImage)
             eq_refl eq_refl eq_refl eq_refl).
  split; reflexivity.
Defined.

Lemma degraded_banners_are_the_photo_witness :
  results (wizard (handleGenerate envImagesDown clock
                     (session TECHNICAL_DETAILS filled)))
  = Some {| copy := Some "Oferta!";
            bannerSquare := Some "data:image/jpeg;base64,/9j/4AAQSkZJRg==";
            bannerStory := Some "data:image/jpeg;base64,/9j/4AAQSkZJRg==";
            bannerDesign := Some "data:image/jpeg;base64,/9j/4AAQSkZJRg==" |}.
Proof.
  assert (Hcopy :
    Service.copyOutcome
      (campaignData (data (wizard (session TECHNICAL_DETAILS filled)))
         "/9j/4AAQSkZJRg==")
      envImagesDown (calls (session TECHNICAL_DETAILS filled))
    = Fulfilled (textResponse "Oferta!")) by (vm_compute; reflexivity).
  assert (Hdown : forall n req,
            model req = imageModel ->
            isFulfilled (gateway envImagesDown n req) = false).
  { intros n req Hmodel. cbn [gateway envImagesDown].
    unfold imagesDownGateway. rewrite Hmodel. reflexivity. }
  destruct (degraded_banners_are_the_photo envImagesDown clock
              (session TECHNICAL_DETAILS filled) (base64 := "/9j/4AAQSkZJRg==")
              eq_refl eq_refl eq_refl Hcopy Hdown)
    as (_ & Hresults).
  rewrite Hresults. reflexivity.
Defined.

End MoreRuns.

(** ** The copy of a campaign *)

Section CopyExtras.

Import Service.

Context `{UnicodeTables}.

(** X15: the copy of a fulfilled campaign is never empty: it is the text of
    the copy response as the gateway gave it, untrimmed, when that text is
    not empty, and the placeholder otherwise. *)
Theorem generateCampaign_copy_never_empty
    (d : CampaignData) (env : Env) (log log' : list Request)
    (r : AdGenerationResult) :
  generateCampaign d env log = (Fulfilled r, log') ->
  copy r <> EmptyString
  /\ exists copyResponse,
       copyOutcome d env log = Fulfilled copyResponse
       /\ (forall t, text copyResponse = Some t -> t <> EmptyString ->
                     copy r = t)
       /\ (truthy_opt (text copyResponse) = false -> copy r = copyPlaceholder).
Proof.
  intros Hrun.
  destruct (truthy (apiKey env)) eqn:Hkey;
    [|rewrite (generateCampaign_no_key d env log Hkey) in Hrun; discriminate].
  destruct (copyOutcome d env log) as [copyResponse|e] eqn:Hcopy;
    [|rewrite (generateCampaign_copy_rejected d env log Hkey Hcopy) in Hrun;
      discriminate].
  rewrite (generateCampaign_run d env log Hkey Hcopy) in Hrun.
  injection Hrun as Hr _. subst r. cbn [copy].
  split; [apply truthy_nonempty, truthy_or_else_opt; reflexivity|].
  exists copyResponse. split; [reflexivity|]. split.
  - intros t Ht Hne. rewrite Ht. cbn [or_else_opt]. unfold or_else.
    apply truthy_nonempty in Hne. rewrite Hne. reflexivity.
  - intros Hblank. destruct (text copyResponse) as [t|]; [|reflexivity].
    cbn [truthy_opt] in Hblank. cbn [or_else_opt]. unfold or_else.
    rewrite Hblank. reflexivity.
Qed.

End CopyExtras.

Section CopyRuns.

Import Service Samples.

Local Existing Instance Latin1.tables.

Lemma generateCampaign_copy_never_empty_witness :
  copy
    {| copy := copyPlaceholder;
       bannerSquare := productImage tenis;
       bannerStory := productImage tenis;
       bannerDesign := productImage tenis |}
  <> EmptyString
  /\ fst (generateCampaign tenis envDegraded [])
     = Fulfilled
         {| copy := copyPlaceholder;
            bannerSquare := productImage tenis;
            bannerStory := productImage tenis;
            bannerDesign := productImage tenis |}.
Proof.
  assert (Hrun : generateCampaign tenis envDegraded []
                 = (Fulfilled
                      {| copy := copyPlaceholder;
                         bannerSquare := productImage tenis;
                         bannerStory := productImage tenis;
                         bannerDesign := productImage tenis |},
                    snd (generateCampaign tenis envDegraded [])))
    by (vm_compute; reflexivity).
  split.
  - exact (proj1 (@generateCampaign_copy_never_empty _ _ _ _ _ _ Hrun)).
  - rewrite Hrun. reflexivity.
Defined.

End CopyRuns.
